(** * project_minori gin server: the chat-room reconciler, the route wiring,
      the CORS middleware and the start-up checks of [main.go], embedded
      as Rocq functions, with the properties the specification states
      about them. *)

From stdpp Require Import gmap strings pretty list fin_maps.
From Stdlib Require Import ZArith Ascii.

(** ** [time]: instants and durations

    A [time.Duration] is an [int64] count of nanoseconds; an instant is
    taken as the number of nanoseconds since the epoch. *)
Module Clock.
Local Open Scope Z_scope.

Definition Nanosecond : Z := 1.
Definition Microsecond : Z := 1000 * Nanosecond.
Definition Millisecond : Z := 1000 * Microsecond.
Definition Second : Z := 1000 * Millisecond.
Definition Minute : Z := 60 * Second.

(** [t.Add(d)] *)
Definition Add (t d : Z) : Z := t + d.

(** [t.After(u)]: [t] is strictly later than [u]. *)
Definition After (t u : Z) : bool := u <? t.
End Clock.

(** ** [models] *)
Module Models.
(** Modelled from the spec: [models.ClassSchedule] is not among the
    sources; the reconciler reads its [ID], [StartedAt] and [EndedAt]
    fields, and the specification gives the record as
    {id, startedAt, endedAt}.  [ID] is a [uint], like
    [ClassCode.ID]. *)
Record ClassSchedule := {
  ID : N;
  StartedAt : Z;
  EndedAt : Z
}.
End Models.

(** ** [services.Manager]: the chat-room registry *)
Module Services.
Inductive Error := NotFound | Unavailable.

(** Modelled from the spec: [services.Manager] is not among the
    sources.  The registry owns room existence; the reconciler only
    depends on which room identifiers exist. *)
Definition Manager : Type := gset string.

(** Modelled from the spec: [CreateRoom] is idempotent, an existing
    room is left as it is. *)
Definition CreateBroadcast (roomID : string) (m : gset string)
  : gset string * option Error :=
  ({[roomID]} ∪ m, None).

(** Modelled from the spec: [DeleteRoom] fails with NotFound if the
    room is absent and removes the room entry otherwise. *)
Definition DeleteBroadcast (roomID : string) (m : gset string)
  : gset string * option Error :=
  if decide (roomID ∈ m) then (m ∖ {[roomID]}, None) else (m, Some NotFound).
End Services.

(** ** [manageChatRooms] *)
Module Reconciler.
Import Clock Models Services.
Local Open Scope Z_scope.

(** The relational store as one tick sees it: the [class_schedules]
    rows when the query succeeds, within the slow threshold of the
    logger ([Reachable]) or beyond it ([Slow]), or a store whose query
    fails ([Failing]).  [trace] is the line the logger of the handle
    prints for the statement (source position, error or "SLOW SQL",
    elapsed time, rows, statement): its text is an input. *)
Inductive DB :=
| Reachable (class_schedules : list ClassSchedule)
| Slow (class_schedules : list ClassSchedule) (trace : string)
| Failing (trace : string).

(** [db.Where(...).Or(...).Find(&schedules)], what it leaves in
    [schedules] and its error: the rows satisfying the condition, in
    table order; a failing query leaves the freshly declared slice
    empty and reports an error.  What the logger of the handle prints
    for the statement is [printed], which [tick] appends to the log
    with it. *)
Definition Find (db : DB) (cond : ClassSchedule → bool)
  : list ClassSchedule * option Error :=
  match db with
  | Reachable rows => (List.filter cond rows, None)
  | Slow rows _ => (List.filter cond rows, None)
  | Failing _ => ([], Some Unavailable)
  end.

(** The logger of the handle.  [InitDB] opens the handle with
    [&gorm.Config{}], so GORM's default logger is in place (level Warn,
    slow threshold 200ms): it prints a trace line for a statement that
    failed and for one that was slow, and nothing otherwise. *)
Definition printed (db : DB) : list string :=
  match db with
  | Reachable _ => []
  | Slow _ trace => [trace]
  | Failing trace => [trace]
  end.

(** ["started_at <= ? AND started_at >= ?"] with [now.Add(5*time.Minute)]
    and [now]. *)
Definition startsWithinLead (now : Z) (s : ClassSchedule) : bool :=
  (StartedAt s <=? Add now (5 * Minute)) && (now <=? StartedAt s).

(** ["ended_at <= ? AND ended_at >= ?"] with [now] and
    [now.Add(-10*time.Minute)]. *)
Definition endedWithinGrace (now : Z) (s : ClassSchedule) : bool :=
  (EndedAt s <=? now) && (Add now (-10 * Minute) <=? EndedAt s).

(** The whole condition of the query: [Where(...).Or(...)]. *)
Definition queryCond (now : Z) (s : ClassSchedule) : bool :=
  startsWithinLead now s || endedWithinGrace now s.

(** [fmt.Sprintf("class_%d", id)] *)
Definition Sprintf_class_d (id : N) : string := "class_" +:+ pretty id.

Definition roomID (s : ClassSchedule) : string := Sprintf_class_d (ID s).

(** [now.After(schedule.EndedAt.Add(10 * time.Minute))] *)
Definition pastGrace (now : Z) (s : ClassSchedule) : bool :=
  After now (Add (EndedAt s) (10 * Minute)).

(** [time.NewTicker(1 * time.Minute)] *)
Definition tickInterval : Z := 1 * Minute.

(** What a tick can touch: the room registry and the process log. *)
Record World := {
  manager : gset string;
  logged : list string
}.

(** The body of the inner [for _, schedule := range schedules]: the
    value returned by [DeleteBroadcast] is dropped. *)
Definition perSchedule (now : Z) (w : World) (s : ClassSchedule) : World :=
  let roomID := roomID s in
  if pastGrace now s then
    let '(m, _) := DeleteBroadcast roomID (manager w) in
    {| manager := m; logged := logged w |}
  else w.

(** What [Find] adds to the log through the logger of the handle. *)
Definition Trace (db : DB) (w : World) : World :=
  {| manager := manager w; logged := logged w ++ printed db |}.

(** One iteration of the outer loop after [<-ticker.C]: [now] is
    [time.Now()], [db] the store at that moment.  The error of the
    query is dropped by the loop itself; the logger has printed it by
    then. *)
Definition tick (now : Z) (db : DB) (w : World) : World :=
  let '(schedules, _) := Find db (queryCond now) in
  let w := Trace db w in
  foldl (perSchedule now) w schedules.

(** What the goroutine receives on [ticker.C], paired with what
    [time.Now()] and the store give at that moment. *)
Record Tick := { tickNow : Z; tickDB : DB }.

Inductive Control := Continue | Break.
Inductive Status := Blocked | Returned.

(** One pass through [for { ... }]: the body has no [break] and no
    [return]. *)
Definition iteration (tk : Tick) (w : World) : World * Control :=
  (tick (tickNow tk) (tickDB tk) w, Continue).

(** The loop over the ticks delivered so far; with none left the
    goroutine is blocked on [<-ticker.C]. *)
Fixpoint forLoop (ticks : list Tick) (w : World) : World * Status :=
  match ticks with
  | [] => (w, Blocked)
  | tk :: rest =>
      match iteration tk w with
      | (w', Continue) => forLoop rest w'
      | (w', Break) => (w', Returned)
      end
  end.

(** What happens in the process while it runs: the ticker fires, or
    SIGINT/SIGTERM arrives on the [quit] channel of [startServer]. *)
Inductive Event :=
| TickerC (tk : Tick)
| QuitSignal.

(** [manageChatRooms(db, chatManager)] receives from [ticker.C] only:
    it has no other channel, context or flag to look at. *)
Definition received (evs : list Event) : list Tick :=
  omap (λ e, match e with TickerC tk => Some tk | QuitSignal => None end) evs.

Definition manageChatRooms (evs : list Event) (w : World) : World * Status :=
  forLoop (received evs) w.
End Reconciler.

(** ** [gin]: contexts, handler chains and route groups, as far as
      [main.go] uses them *)
Module Gin.
Local Open Scope Z_scope.

Record Request := {
  Method : string;
  URLPath : string;
  bearer : option string   (* the bearer credential, when one is sent *)
}.

(** An entry of [c.Errors]: the text of the error and, when one was
    set, the text [%v] gives for its [Meta]. *)
Record ErrorMsg := {
  Err : string;
  Meta : option string
}.

(** The fields of a [gin.H] with string values. *)
Definition H : Type := list (string * string).

(** What a handler wrote as body: one entry per render call, with the
    object it was given; the bytes of its serialisation are not
    modelled. *)
Inductive Written :=
| JSONBody (obj : H).

Record Context := {
  request : Request;
  header : gmap string (list string);   (* c.Writer.Header() *)
  status : Z;                           (* status of the response writer *)
  written : bool;                       (* header already sent *)
  aborted : bool;                       (* c.IsAborted() *)
  Errors : list ErrorMsg;               (* c.Errors *)
  body : list Written;                  (* what was written as body *)
  caller : option N                     (* identity set by token validation *)
}.

(** The context handed to the first handler of a request. *)
Definition newContext (req : Request) : Context :=
  {| request := req; header := ∅; status := 200; written := false;
     aborted := false; Errors := []; body := []; caller := None |}.

(** A handler receives [c.Next] as its first argument: calling it runs
    the rest of the chain, returning without calling it after an
    abort ends the chain. *)
Definition HandlerFunc : Type := (Context → Context) → Context → Context.

(** [c.Writer.Header().Set(k, v)] *)
Definition HeaderSet (k v : string) (c : Context) : Context :=
  {| request := request c; header := <[k := [v]]> (header c);
     status := status c; written := written c; aborted := aborted c;
     Errors := Errors c; body := body c; caller := caller c |}.

(** [c.Status(code)]: a header that was sent keeps its status. *)
Definition Status (code : Z) (c : Context) : Context :=
  if (0 <? code) && negb (status c =? code) && negb (written c) then
    {| request := request c; header := header c;
       status := code; written := written c; aborted := aborted c;
       Errors := Errors c; body := body c; caller := caller c |}
  else c.

(** [c.Writer.WriteHeaderNow()] *)
Definition WriteHeaderNow (c : Context) : Context :=
  {| request := request c; header := header c;
     status := status c; written := true; aborted := aborted c;
     Errors := Errors c; body := body c; caller := caller c |}.

(** [c.Abort()] *)
Definition Abort (c : Context) : Context :=
  {| request := request c; header := header c;
     status := status c; written := written c; aborted := true;
     Errors := Errors c; body := body c; caller := caller c |}.

(** [c.AbortWithStatus(code)] *)
Definition AbortWithStatus (code : Z) (c : Context) : Context :=
  Abort (WriteHeaderNow (Status code c)).

(** [writeContentType]: sets Content-Type unless the header has one. *)
Definition writeContentType (value : string) (c : Context) : Context :=
  match header c !! "Content-Type" with
  | Some (_ :: _) => c
  | _ => HeaderSet "Content-Type" value c
  end.

(** [bodyAllowedForStatus(code)]: no body for 1xx, 204 and 304. *)
Definition bodyAllowedForStatus (code : Z) : bool :=
  negb (((100 <=? code) && (code <=? 199)) || (code =? 204) || (code =? 304)).

(** [c.JSON(code, obj)]: sets the status, then writes the content type
    and, when the status allows a body, the object. *)
Definition JSON (code : Z) (obj : H) (c : Context) : Context :=
  let c := Status code c in
  let c := writeContentType "application/json; charset=utf-8" c in
  {| request := request c; header := header c;
     status := status c; written := true; aborted := aborted c;
     Errors := Errors c;
     body := if bodyAllowedForStatus code then body c ++ [JSONBody obj]
             else body c;
     caller := caller c |}.

Definition setCaller (uid : N) (c : Context) : Context :=
  {| request := request c; header := header c;
     status := status c; written := written c; aborted := aborted c;
     Errors := Errors c; body := body c; caller := Some uid |}.

(** Running a chain of handlers on a context. *)
Fixpoint serve (chain : list HandlerFunc) (c : Context) : Context :=
  match chain with
  | [] => c
  | h :: rest => h (serve rest) c
  end.

(** [gin.Logger()] and [gin.Recovery()], installed by [gin.Default()]:
    both let the request through. *)
Definition Logger : HandlerFunc := λ next c, next c.
Definition Recovery : HandlerFunc := λ next c, next c.

Record Route := {
  routeMethod : string;
  routePath : string;
  routeChain : list HandlerFunc
}.

Record RouterGroup := {
  basePath : string;
  Handlers : list HandlerFunc
}.

Record Engine := {
  root : RouterGroup;
  trees : list Route
}.

(** [gin.Default()] *)
Definition Default : Engine :=
  {| root := {| basePath := "/"; Handlers := [Logger; Recovery] |};
     trees := [] |}.

(** [group.Use(middleware)] *)
Definition Use (g : RouterGroup) (mw : HandlerFunc) : RouterGroup :=
  {| basePath := basePath g; Handlers := Handlers g ++ [mw] |}.

(** [router.Use(middleware)] *)
Definition EngineUse (e : Engine) (mw : HandlerFunc) : Engine :=
  {| root := Use (root e) mw; trees := trees e |}.

(** [joinPaths(absolutePath, relativePath)] for the paths of this
    program: an empty relative path gives the absolute path, otherwise
    [path.Join] puts exactly one slash between the two.  (No relative
    path here ends in a slash or contains dots.) *)
Fixpoint trimTrailingSlash (s : string) : string :=
  match s with
  | EmptyString => EmptyString
  | String c EmptyString => if Ascii.eqb c "/"%char then EmptyString else s
  | String c rest => String c (trimTrailingSlash rest)
  end.

Definition trimLeadingSlash (s : string) : string :=
  match s with
  | String c rest => if Ascii.eqb c "/"%char then rest else s
  | EmptyString => s
  end.

Definition joinPaths (absolutePath relativePath : string) : string :=
  if String.eqb relativePath "" then absolutePath
  else trimTrailingSlash absolutePath +:+ "/" +:+ trimLeadingSlash relativePath.

(** [group.Group(relativePath)]: the new group starts with the
    handlers its parent has at that moment. *)
Definition Group (g : RouterGroup) (relativePath : string) : RouterGroup :=
  {| basePath := joinPaths (basePath g) relativePath; Handlers := Handlers g |}.

(** [group.Handle(method, relativePath, handler)]: the chain of the
    route is the group's handlers followed by the handler. *)
Definition Handle (g : RouterGroup) (method relativePath : string)
    (h : HandlerFunc) (e : Engine) : Engine :=
  {| root := root e;
     trees := trees e ++
       [{| routeMethod := method;
           routePath := joinPaths (basePath g) relativePath;
           routeChain := Handlers g ++ [h] |}] |}.

Definition GET g := Handle g "GET".
Definition POST g := Handle g "POST".
Definition PUT g := Handle g "PUT".
Definition PATCH g := Handle g "PATCH".
Definition DELETE g := Handle g "DELETE".
End Gin.

(** ** [middlewares] *)
Module Middlewares.
Import Gin.

(** Modelled from the spec: [middlewares.TokenAuthMiddleware] is not
    among the sources.  A request must carry a validated bearer
    credential that resolves to a caller identity; a missing or
    invalid one is answered with Unauthorized (401) and the chain is
    aborted.  [validate] stands for the token validation of the JWT
    service. *)
Definition TokenAuthMiddleware (validate : string → option N) : HandlerFunc :=
  λ next c,
    match bearer (request c) ≫= validate with
    | Some uid => next (setCaller uid c)
    | None => AbortWithStatus 401 c
    end.
End Middlewares.

(** ** [main.go]: middleware and routes *)
Module Main.
Import Gin Middlewares.
Local Open Scope Z_scope.

(** [%02d] of a number that is not negative. *)
Definition pad2 (n : N) : string :=
  if (n <? 10)%N then "0" +:+ pretty n else pretty n.

Definition newline : string := String (Ascii.ascii_of_nat 10) EmptyString.

(** [c.Errors.String()]: for the error at index [i] the line
    "Error #NN: text" with NN = i + 1, then its Meta line if it has
    one. *)
Fixpoint errorLines (i : N) (errs : list ErrorMsg) : string :=
  match errs with
  | [] => ""
  | msg :: rest =>
      "Error #" +:+ pad2 (i + 1) +:+ ": " +:+ Err msg +:+ newline +:+
      match Meta msg with
      | Some meta => "     Meta: " +:+ meta +:+ newline
      | None => ""
      end +:+
      errorLines (i + 1) rest
  end.

Definition errorsString (errs : list ErrorMsg) : string := errorLines 0 errs.

Definition globalErrorHandler : HandlerFunc := λ next c,
  let c := next c in
  if (0 <? Z.of_nat (length (Errors c))) then
    JSON 500 [("error", "Internal server error");
              ("details", errorsString (Errors c))] c
  else c.

Definition setCORSHeaders (c : Context) : Context :=
  let c := HeaderSet "Access-Control-Allow-Origin" "http://localhost:3000" c in
  let c := HeaderSet "Access-Control-Allow-Credentials" "true" c in
  let c := HeaderSet "Access-Control-Allow-Headers"
    "Content-Type, Content-Length, Accept-Encoding, X-CSRF-Token, Authorization, accept, origin, Cache-Control, X-Requested-With" c in
  HeaderSet "Access-Control-Allow-Methods" "POST, PATCH, GET, PUT, DELETE, OPTIONS" c.

Definition CORS : HandlerFunc := λ next c,
  let c := setCORSHeaders c in
  if String.eqb (Method (request c)) "OPTIONS" then
    AbortWithStatus 204 c
  else
    next c.

(** The handlers of the controllers (and of swagger), which are not
    among the sources. *)
Inductive Endpoint :=
| SwaggerHandler
| GetApplyingClasses
| GetAllClassBoards | GetClassBoardByID | GetAnnouncedClassBoards
| CreateClassBoard | UpdateClassBoard | DeleteClassBoard
| CheckSecretExists | VerifyClassCode
| GetAllClassSchedules | GetClassScheduleByID | CreateClassSchedule
| UpdateClassSchedule | DeleteClassSchedule | GetLiveClassSchedules
| GetClassSchedulesByDate
| GoogleLoginHandler | ProcessAuthCode | RefreshAccessTokenHandler
| GetClass | CreateClass | UpdateClass | DeleteClass
| GetClassMembers | GetUserClassUserInfo | GetUserClasses | GetFavoriteClasses
| GetUserClassesByRole | ChangeUserRole | ToggleFavorite | UpdateUserName
| RemoveUserFromClass
| CreateOrUpdateAttendance | GetAllAttendances | GetAttendance | DeleteAttendance
| CreateChatRoom | HandleChatRoom | PostToChatRoom | DeleteChatRoom
| StreamChat | GetChatMessages | SendDirectMessage | GetDirectMessages
| CreateRoomHandler | StartScreenShareHandler | StopScreenShareHandler
| ViewScreenShareHandler.

Section Routes.
Variable validate : string → option N.          (* jwtService *)
Variable controller : Endpoint → HandlerFunc.   (* the controllers *)

Definition initializeSwagger (router : Engine) : Engine :=
  GET (root router) "/api/gin/swagger/*any" (controller SwaggerHandler) router.

Definition setupUserRoutes (router : Engine) : Engine :=
  let u := Group (root router) "/api/gin/u" in
  GET u ":userID/applying-classes" (controller GetApplyingClasses) router.

Definition setupClassBoardRoutes (router : Engine) : Engine :=
  let cb := Group (root router) "/api/gin/cb" in
  let router := GET cb "" (controller GetAllClassBoards) router in
  let router := GET cb ":id" (controller GetClassBoardByID) router in
  let router := GET cb "announced" (controller GetAnnouncedClassBoards) router in
  let router := POST cb "" (controller CreateClassBoard) router in
  let router := PATCH cb ":id/:cid/:uid" (controller UpdateClassBoard) router in
  DELETE cb ":id" (controller DeleteClassBoard) router.

Definition setupClassCodeRoutes (router : Engine) : Engine :=
  let cc := Group (root router) "/api/gin/cc" in
  let router := GET cc "checkSecretExists" (controller CheckSecretExists) router in
  GET cc "verifyClassCode" (controller VerifyClassCode) router.

Definition setupClassScheduleRoutes (router : Engine) : Engine :=
  let cs := Group (root router) "/api/gin/cs" in
  let router := GET cs "" (controller GetAllClassSchedules) router in
  let router := GET cs ":id" (controller GetClassScheduleByID) router in
  let router := POST cs "" (controller CreateClassSchedule) router in
  let router := PATCH cs ":id" (controller UpdateClassSchedule) router in
  let router := DELETE cs ":id" (controller DeleteClassSchedule) router in
  let router := GET cs "live" (controller GetLiveClassSchedules) router in
  GET cs "date" (controller GetClassSchedulesByDate) router.

Definition setupGoogleAuthRoutes (router : Engine) : Engine :=
  let g := Group (root router) "/api/gin/auth/google" in
  let router := GET g "login" (controller GoogleLoginHandler) router in
  let router := POST g "process" (controller ProcessAuthCode) router in
  POST g "refresh-token" (controller RefreshAccessTokenHandler) router.

Definition setupCreateClassRoutes (router : Engine) : Engine :=
  let cl := Group (root router) "/api/gin/cl" in
  let router := GET cl ":cid" (controller GetClass) router in
  let router := POST cl "create" (controller CreateClass) router in
  let router := PATCH cl ":uid/:cid" (controller UpdateClass) router in
  DELETE cl ":uid/:cid" (controller DeleteClass) router.

Definition setupClassUserRoutes (router : Engine) : Engine :=
  let cu := Group (root router) "/api/gin/cu" in
  let router := GET cu "class/:cid/:role/members" (controller GetClassMembers) router in
  let userRoutes := Group cu ":uid" in
  let router := GET userRoutes ":cid/info" (controller GetUserClassUserInfo) router in
  let router := GET userRoutes "classes" (controller GetUserClasses) router in
  let router := GET userRoutes "favorite-classes" (controller GetFavoriteClasses) router in
  let router := GET userRoutes "classes/:roleID" (controller GetUserClassesByRole) router in
  let router := PATCH userRoutes ":cid/:roleID" (controller ChangeUserRole) router in
  let router := PATCH userRoutes ":cid/toggle-favorite" (controller ToggleFavorite) router in
  let router := PUT userRoutes ":cid/:rename" (controller UpdateUserName) router in
  DELETE userRoutes ":cid/remove" (controller RemoveUserFromClass) router.

Definition setupAttendanceRoutes (router : Engine) : Engine :=
  let at_ := Group (root router) "/api/gin/at" in
  let router := POST at_ ":cid/:uid/:csid" (controller CreateOrUpdateAttendance) router in
  let router := GET at_ ":cid" (controller GetAllAttendances) router in
  let router := GET at_ "attendance/:id" (controller GetAttendance) router in
  DELETE at_ "attendance/:id" (controller DeleteAttendance) router.

Definition setupChatRoutes (router : Engine) : Engine :=
  let chat := Group (root router) "/api/gin/chat" in
  let router := POST chat "create-room/:scheduleId" (controller CreateChatRoom) router in
  let router := GET chat "room/:scheduleId/:userId" (controller HandleChatRoom) router in
  let router := POST chat "room/:scheduleId" (controller PostToChatRoom) router in
  let router := DELETE chat "room/:scheduleId" (controller DeleteChatRoom) router in
  let router := GET chat "stream/:scheduleId" (controller StreamChat) router in
  let router := GET chat "messages/:roomid" (controller GetChatMessages) router in
  let router := POST chat "dm/:senderId/:receiverId" (controller SendDirectMessage) router in
  GET chat "dm/:userId1/:userId2" (controller GetDirectMessages) router.

Definition setupLiveClassRoutes (router : Engine) : Engine :=
  let live := Group (root router) "/api/gin/live" in
  let live := Use live (TokenAuthMiddleware validate) in
  let router := POST live "create-room" (controller CreateRoomHandler) router in
  let router := GET live "start-screen-share/:roomID/:userID"
                  (controller StartScreenShareHandler) router in
  let router := GET live "stop-screen-share/:roomID/:userID"
                  (controller StopScreenShareHandler) router in
  GET live "view-screen-share/:roomID" (controller ViewScreenShareHandler) router.

Definition setupRoutes (router : Engine) : Engine :=
  let router := setupUserRoutes router in
  let router := setupClassBoardRoutes router in
  let router := setupClassCodeRoutes router in
  let router := setupClassScheduleRoutes router in
  let router := setupClassUserRoutes router in
  let router := setupAttendanceRoutes router in
  let router := setupGoogleAuthRoutes router in
  let router := setupCreateClassRoutes router in
  let router := setupChatRoutes router in
  setupLiveClassRoutes router.

Definition setupRouter : Engine :=
  let router := Default in
  let router := EngineUse router globalErrorHandler in
  let router := EngineUse router CORS in
  let router := initializeSwagger router in
  setupRoutes router.

(** The routes registered under the live group. *)
Definition liveRoutes : list Route :=
  List.filter (λ r, String.prefix "/api/gin/live/" (routePath r))
              (trees setupRouter).
End Routes.
End Main.

(** ** [main.go]: start-up *)
Module Startup.
Local Open Scope Z_scope.

(** The process as start-up sees it: its environment and what it has
    written to the log. *)
Record Process := {
  environ : gmap string string;
  stderr : list string
}.

(** A step of [main] either returns, or ends the process
    ([log.Fatalf] exits with code 1), or panics with a value: the
    runtime then prints the value and the goroutine traces and the
    process ends with status 2; [p] is the process as the panic found
    it. *)
Inductive Outcome (A : Type) :=
| Return (a : A) (p : Process)
| Exit (code : Z) (p : Process)
| Panic (value : string) (p : Process).
Arguments Return {A} a p.
Arguments Exit {A} code p.
Arguments Panic {A} value p.

Definition Step (A : Type) : Type := Process → Outcome A.

Definition ret {A} (a : A) : Step A := λ p, Return a p.

Definition bind {A B} (m : Step A) (k : A → Step B) : Step B :=
  λ p, match m p with
       | Return a p' => k a p'
       | Exit code p' => Exit code p'
       | Panic value p' => Panic value p'
       end.

Notation "'let*' x ':=' m 'in' k" := (bind m (λ x, k))
  (at level 10, x name, m at level 100, k at level 200).

(** [os.Getenv(key)]: the empty string when the variable is unset. *)
Definition Getenv (key : string) : Step string :=
  λ p, Return (default "" (environ p !! key)) p.

(** [log.Println(msg)] *)
Definition Println (msg : string) : Step unit :=
  λ p, Return tt {| environ := environ p; stderr := stderr p ++ [msg] |}.

(** [log.Fatalf(msg)]: prints, then [os.Exit(1)]. *)
Definition Fatalf {A} (msg : string) : Step A :=
  λ p, Exit 1 {| environ := environ p; stderr := stderr p ++ [msg] |}.

(** [godotenv.Load()]: reads [.env]; a file that cannot be read is an
    error, a variable that exists already is not overridden. *)
Definition setIfAbsent (e : gmap string string) (kv : string * string)
  : gmap string string :=
  match e !! kv.1 with
  | Some _ => e
  | None => <[kv.1 := kv.2]> e
  end.

Definition godotenv_Load (dotenv : option (list (string * string)))
  : Step (option string) :=
  λ p, match dotenv with
       | None => Return (Some "open .env: no such file or directory") p
       | Some kvs =>
           Return None {| environ := foldl setIfAbsent (environ p) kvs;
                          stderr := stderr p |}
       end.

Definition requiredVars : list string :=
  ["MYSQL_HOST"; "MYSQL_USER"; "MYSQL_PASSWORD"; "MYSQL_DATABASE"; "MYSQL_PORT"].

(** [for _, varName := range requiredVars { ... }] *)
Fixpoint checkVars (vars : list string) : Step unit :=
  match vars with
  | [] => ret tt
  | varName :: rest =>
      let* value := Getenv varName in
      if String.eqb value "" then
        Fatalf ("環境変数 " +:+ varName +:+ " が設定されていません。")
      else checkVars rest
  end.

Definition ensureEnvVariables (dotenv : option (list (string * string)))
  : Step unit :=
  let* err := godotenv_Load dotenv in
  let* _ := match err with
            | Some _ => Println "環境変数ファイルが読み込めませんでした。"
            | None => ret tt
            end in
  checkVars requiredVars.

(** [getEnvOrDefault(key, defaultValue)] *)
Definition getEnvOrDefault (key defaultValue : string) : Step string :=
  let* value := Getenv key in
  if String.eqb value "" then ret defaultValue else ret value.

(** [gin.SetMode(value)]: the modes are debug, release and test (the
    empty string stands for debug); any other value panics.  The mode
    itself is a variable of the framework and not part of [Process]. *)
Definition SetMode (value : string) : Step unit :=
  if String.eqb value "debug" || String.eqb value ""
     || String.eqb value "release" || String.eqb value "test"
  then ret tt
  else λ p, Panic ("gin mode unknown: " +:+ value
                     +:+ " (available mode: debug release test)") p.

(** [configureGinMode]: GIN_MODE, or release when it is unset or
    empty, is handed to [gin.SetMode]. *)
Definition configureGinMode : Step unit :=
  let* ginMode := getEnvOrDefault "GIN_MODE" "release" in
  SetMode ginMode.

(** [initializeDatabase] and [initializeRedis] end the process when
    the store cannot be reached; whether it can is an input. *)
Definition initializeDatabase (up : bool) : Step unit :=
  if up then ret tt else Fatalf "データベースの初期化に失敗しました".

Definition initializeRedis (up : bool) : Step unit :=
  if up then ret tt else Fatalf "Redisの初期化に失敗しました".

(** [migrateDatabaseIfNeeded]: [migration.Migrate] ends the process
    when the migration fails; whether it succeeds is an input. *)
Definition migrateDatabaseIfNeeded (migrates : bool) : Step unit :=
  let* run := getEnvOrDefault "RUN_MIGRATIONS" "false" in
  if String.eqb run "true" then
    let* _ := (if migrates then ret tt
               else Fatalf "failed to migrate database") in
    Println "データベース移行の実行が完了しました。"
  else ret tt.

(** What [main] has reached when it returns in this model:
    [startServer], where [srv.ListenAndServe()] begins to serve. *)
Inductive Phase := Serving.

Definition startServer : Step Phase := ret Serving.

(** [main]; the constructors of repositories, services and router
    between these calls do not touch the process. *)
Definition main (dotenv : option (list (string * string)))
    (dbUp redisUp migrates : bool) : Step Phase :=
  let* _ := configureGinMode in
  let* _ := ensureEnvVariables dotenv in
  let* _ := initializeDatabase dbUp in
  let* _ := initializeRedis redisUp in
  let* _ := migrateDatabaseIfNeeded migrates in
  startServer.
End Startup.

(** ** The direct-message store *)
Module DirectMessages.
Local Open Scope N_scope.

(** Modelled from the spec: the chat controller and its store are not
    among the sources; [main.go] only routes
    [dm/:senderId/:receiverId] and [dm/:userId1/:userId2] to them. *)
Record DirectMessage := {
  dmID : N;
  unorderedPairKey : N * N;
  senderUserID : N;
  dmBody : string;
  dmTimestamp : Z
}.

(** Modelled from the spec: a canonical, order-independent encoding
    of the two user ids. *)
Definition canonicalPairKey (u1 u2 : N) : N * N :=
  if u1 <=? u2 then (u1, u2) else (u2, u1).

Record Store := {
  nextID : N;
  logs : gmap (N * N) (list DirectMessage)
}.

Definition emptyStore : Store := {| nextID := 1; logs := ∅ |}.

(** Modelled from the spec: always succeeds; the message is appended
    to the pairwise log keyed by the canonical pair key. *)
Definition SendDirectMessage (senderID receiverID : N) (text : string)
    (now : Z) (st : Store) : Store * DirectMessage :=
  let key := canonicalPairKey senderID receiverID in
  let m := {| dmID := nextID st; unorderedPairKey := key;
              senderUserID := senderID; dmBody := text;
              dmTimestamp := now |} in
  ({| nextID := N.succ (nextID st);
      logs := <[key := default [] (logs st !! key) ++ [m]]> (logs st) |}, m).

(** Modelled from the spec: the full log of the pair, in send order. *)
Definition GetDirectMessages (userID1 userID2 : N) (st : Store)
  : list DirectMessage :=
  default [] (logs st !! canonicalPairKey userID1 userID2).

(** A call of [SendDirectMessage]. *)
Record Send := {
  sendFrom : N;
  sendTo : N;
  sendText : string;
  sendAt : Z
}.

(** A history of calls, run in order; the messages they returned are
    collected in send order. *)
Fixpoint history (calls : list Send) (st : Store) : Store * list DirectMessage :=
  match calls with
  | [] => (st, [])
  | c :: rest =>
      let '(st1, m) := SendDirectMessage (sendFrom c) (sendTo c)
                         (sendText c) (sendAt c) st in
      let '(st2, ms) := history rest st1 in
      (st2, m :: ms)
  end.

(** The messages of a history that belong to the conversation of
    [a] and [b]. *)
Definition between (a b : N) (ms : list DirectMessage) : list DirectMessage :=
  List.filter (λ m, bool_decide (unorderedPairKey m = canonicalPairKey a b)) ms.
End DirectMessages.

(** ** The live-session registry *)
Module LiveClass.
Inductive Error := Conflict.

(** Modelled from the spec: the live-class service is not among the
    sources; [main.go] only routes the [live/*] paths to its
    controller. *)
Record LiveSession := {
  presenterUserID : option N;
  viewers : gset N
}.

Definition Idle : LiveSession := {| presenterUserID := None; viewers := ∅ |}.

(** Sessions are created lazily: a room never referred to is [Idle]. *)
Definition sessionOf (roomID : string) (reg : gmap string LiveSession)
  : LiveSession :=
  default Idle (reg !! roomID).

Definition setPresenter (p : option N) (s : LiveSession) : LiveSession :=
  {| presenterUserID := p; viewers := viewers s |}.

(** Modelled from the spec: Conflict when another user presents,
    idempotent success for the presenter, else the session becomes
    Presenting(userID). *)
Definition StartScreenShare (roomID : string) (userID : N)
    (reg : gmap string LiveSession) : gmap string LiveSession * option Error :=
  let s := sessionOf roomID reg in
  match presenterUserID s with
  | Some other =>
      if decide (other = userID) then (reg, None) else (reg, Some Conflict)
  | None => (<[roomID := setPresenter (Some userID) s]> reg, None)
  end.

(** Modelled from the spec: Conflict when [userID] is not the current
    presenter, else the session becomes Idle. *)
Definition StopScreenShare (roomID : string) (userID : N)
    (reg : gmap string LiveSession) : gmap string LiveSession * option Error :=
  let s := sessionOf roomID reg in
  if decide (presenterUserID s = Some userID) then
    (<[roomID := setPresenter None s]> reg, None)
  else (reg, Some Conflict).

(** Modelled from the spec: the current presenter, if any. *)
Definition ViewScreenShare (roomID : string) (reg : gmap string LiveSession)
  : option N :=
  presenterUserID (sessionOf roomID reg).

Inductive Call :=
| Start (roomID : string) (userID : N)
| Stop (roomID : string) (userID : N).

Definition exec (c : Call) (reg : gmap string LiveSession)
  : gmap string LiveSession * option Error :=
  match c with
  | Start r u => StartScreenShare r u reg
  | Stop r u => StopScreenShare r u reg
  end.

(** Calls run in order from a registry, with the answer each one
    got. *)
Fixpoint run (cs : list Call) (reg : gmap string LiveSession)
  : gmap string LiveSession * list (Call * option Error) :=
  match cs with
  | [] => (reg, [])
  | c :: rest =>
      let '(reg1, e) := exec c reg in
      let '(reg2, es) := run rest reg1 in
      (reg2, (c, e) :: es)
  end.

(** Who holds the presenter role of [roomID] according to the answers
    alone: a user enters with a start that succeeded and leaves with
    a stop that succeeded. *)
Definition account (roomID : string) (holders : list N)
    (entry : Call * option Error) : list N :=
  match entry with
  | (Start r u, None) =>
      if decide (r = roomID) then
        if decide (u ∈ holders) then holders else u :: holders
      else holders
  | (Stop r u, None) =>
      if decide (r = roomID) then List.filter (λ v, negb (N.eqb v u)) holders
      else holders
  | (_, Some _) => holders
  end.

Definition holders (roomID : string) (answers : list (Call * option Error))
  : list N :=
  foldl (account roomID) [] answers.
End LiveClass.

(** ** [strconv.Atoi] *)
Module Strconv.
Local Open Scope Z_scope.

Inductive Err := ErrSyntax | ErrRange.

(** The value of a decimal digit; [None] for any other byte. *)
Definition digit (c : ascii) : option Z :=
  let n := Z.of_nat (nat_of_ascii c) in
  if (48 <=? n) && (n <=? 57) then Some (n - 48) else None.

Definition maxUint64 : Z := 2 ^ 64 - 1.

(** [cutoff]: the smallest number [n] such that [n * 10] overflows. *)
Definition cutoff : Z := maxUint64 / 10 + 1.

(** The loop of [ParseUint(s, 10, 64)]: a byte that is no digit is a
    syntax error, an overflow a range error, whichever comes first. *)
Fixpoint parseUintLoop (s : string) (n : Z) : Z + Err :=
  match s with
  | EmptyString => inl n
  | String c rest =>
      match digit c with
      | None => inr ErrSyntax
      | Some d =>
          if cutoff <=? n then inr ErrRange
          else
            let n1 := n * 10 + d in
            if maxUint64 <? n1 then inr ErrRange else parseUintLoop rest n1
      end
  end.

Definition ParseUint (s : string) : Z + Err :=
  match s with
  | EmptyString => inr ErrSyntax
  | _ => parseUintLoop s 0
  end.

(** [ParseInt(s, 10, 0)] with 64-bit [int]: an optional sign, then
    [ParseUint], then the range of [int64]. *)
Definition ParseInt (s : string) : Z + Err :=
  match s with
  | EmptyString => inr ErrSyntax
  | String c rest =>
      let neg := Ascii.eqb c "-"%char in
      let body := if Ascii.eqb c "+"%char || neg then rest else s in
      match ParseUint body with
      | inr e => inr e
      | inl un =>
          if negb neg && (2 ^ 63 <=? un) then inr ErrRange
          else if neg && (2 ^ 63 <? un) then inr ErrRange
          else inl (if neg then - un else un)
      end
  end.

(** The loop of the fast path of [Atoi]: no overflow check. *)
Fixpoint fastLoop (s : string) (n : Z) : Z + Err :=
  match s with
  | EmptyString => inl n
  | String c rest =>
      match digit c with
      | None => inr ErrSyntax
      | Some d => fastLoop rest (n * 10 + d)
      end
  end.

(** [strconv.Atoi(s)] with 64-bit [int]: strings of 1 to 18 bytes take
    the fast path, the others go through [ParseInt]. *)
Definition Atoi (s : string) : Z + Err :=
  let sLen := Z.of_nat (String.length s) in
  if (0 <? sLen) && (sLen <? 19) then
    match s with
    | EmptyString => inr ErrSyntax
    | String c rest =>
        let signed := Ascii.eqb c "-"%char || Ascii.eqb c "+"%char in
        let body := if signed then rest else s in
        match body with
        | EmptyString => inr ErrSyntax
        | _ =>
            match fastLoop body 0 with
            | inr e => inr e
            | inl n => inl (if Ascii.eqb c "-"%char then - n else n)
            end
        end
    end
  else ParseInt s.

(** The text of the error of [Atoi]; [Quote] is [strconv.Quote]. *)
Definition NumError_Error (Quote : string → string) (num : string) (e : Err)
  : string :=
  "strconv.Atoi: parsing " +:+ Quote num +:+ ": " +:+
  match e with
  | ErrSyntax => "invalid syntax"
  | ErrRange => "value out of range"
  end.
End Strconv.

(** ** [migration] *)
Module Migration.
Import Startup Strconv.
Local Open Scope Z_scope.

(** What [InitDB] hands back: the connection string the handle was
    opened with and the settings of its pool. *)
Record DBHandle := {
  DSN : string;
  MaxIdleConns : Z;
  MaxOpenConns : Z;
  ConnMaxLifetime : Z
}.

(** [fmt.Sprintf("%s:%s@tcp(%s:%d)/%s?charset=utf8mb4&parseTime=True&loc=Local", ...)] *)
Definition formatDSN (user pass host : string) (portInt : Z) (dbName : string)
  : string :=
  user +:+ ":" +:+ pass +:+ "@tcp(" +:+ host +:+ ":" +:+ pretty portInt +:+ ")/"
    +:+ dbName +:+ "?charset=utf8mb4&parseTime=True&loc=Local".

(** The line of [log.Printf("Database Config - ...")]. *)
Definition configLine (user pass dbName host port : string) : string :=
  "Database Config - User: " +:+ user +:+ ", Password: " +:+ pass
    +:+ ", DB Name: " +:+ dbName +:+ ", Host: " +:+ host +:+ ", Port: " +:+ port.

Section WithQuote.
Variable Quote : string → string.   (* strconv.Quote *)

(** The line of [log.Printf("Invalid port number. ...")]. *)
Definition portWarning (port : string) (e : Err) : string :=
  "Invalid port number. Using default port 3306. Error: "
    +:+ NumError_Error Quote port e.

(** [InitDB]: [opens] is the error of [gorm.Open], [generic] the error
    of [db.DB()], [None] when the call succeeds. *)
Definition InitDB (opens generic : option string) : Step DBHandle :=
  let* user := Getenv "MYSQL_USER" in
  let* pass := Getenv "MYSQL_PASSWORD" in
  let* dbName := Getenv "MYSQL_DATABASE" in
  let* host := Getenv "MYSQL_HOST" in
  let* port := Getenv "MYSQL_PORT" in
  let* _ := Println (configLine user pass dbName host port) in
  let* portInt :=
    match Atoi port with
    | inl n => ret n
    | inr e => let* _ := Println (portWarning port e) in ret 3306
    end in
  let dsn := formatDSN user pass host portInt dbName in
  match opens with
  | Some err => Fatalf ("failed to connect to database: " +:+ err)
  | None =>
      match generic with
      | Some err => Fatalf ("failed to get gennric database: " +:+ err)
      | None =>
          ret {| DSN := dsn; MaxIdleConns := 10; MaxOpenConns := 100;
                 ConnMaxLifetime := 60 * Clock.Minute |}
      end
  end.
End WithQuote.
End Migration.

(** ** Definitions used in the statements *)

Import Clock Models Services Reconciler.

(** A schedule makes the tick call [DeleteBroadcast] exactly when the
    query returns it and the grace test holds. *)
Definition doomed (now : Z) (s : ClassSchedule) : bool :=
  queryCond now s && pastGrace now s.

(** A tick at 2024-05-01 10:00:00 UTC. *)
Definition t0 : Z := (1714557600 * Second)%Z.

(** A one-hour class, id 42, that ended eleven minutes before [t0]. *)
Definition endedElevenAgo : ClassSchedule :=
  {| ID := 42; StartedAt := (t0 - 71 * Minute)%Z; EndedAt := (t0 - 11 * Minute)%Z |}.

(** A one-hour class, id 42, that starts four minutes after [t0]. *)
Definition startsInFour : ClassSchedule :=
  {| ID := 42; StartedAt := (t0 + 4 * Minute)%Z; EndedAt := (t0 + 64 * Minute)%Z |}.

(** A one-hour class, id 43, that starts six minutes after [t0]. *)
Definition startsInSix : ClassSchedule :=
  {| ID := 43; StartedAt := (t0 + 6 * Minute)%Z; EndedAt := (t0 + 66 * Minute)%Z |}.

(** A row whose end lies before its start: it starts in two minutes
    and ended twenty minutes ago. *)
Definition endsBeforeStart : ClassSchedule :=
  {| ID := 7; StartedAt := (t0 + 2 * Minute)%Z; EndedAt := (t0 - 20 * Minute)%Z |}.

Definition otherEndsBeforeStart : ClassSchedule :=
  {| ID := 9; StartedAt := (t0 + 1 * Minute)%Z; EndedAt := (t0 - 30 * Minute)%Z |}.

Definition withRooms (rooms : gset string) : World :=
  {| manager := rooms; logged := [] |}.

(** A token service that knows one token, and controllers that answer
    200 at once. *)
Definition oneToken (tok : string) : option N :=
  if String.eqb tok "valid-token" then Some 5%N else None.

Definition okController (_ : Main.Endpoint) : Gin.HandlerFunc :=
  λ _ c, Gin.JSON 200 [("message", "ok")] c.

Definition preflight : Gin.Request :=
  {| Gin.Method := "OPTIONS"; Gin.URLPath := "/api/gin/live/create-room";
     Gin.bearer := None |}.

Definition createRoomPost (cred : option string) : Gin.Request :=
  {| Gin.Method := "POST"; Gin.URLPath := "/api/gin/live/create-room";
     Gin.bearer := cred |}.

(** The presenter of a room as a list: empty or one user. *)
Definition presenting (r : string) (reg : gmap string LiveClass.LiveSession)
  : list N :=
  match LiveClass.ViewScreenShare r reg with
  | Some u => [u]
  | None => []
  end.

(** The environment once [.env] has been read, if it could be. *)
Definition loadedEnv (dotenv : option (list (string * string)))
    (p : Startup.Process) : gmap string string :=
  match dotenv with
  | None => Startup.environ p
  | Some kvs => foldl Startup.setIfAbsent (Startup.environ p) kvs
  end.

Definition unsetOrEmpty (e : gmap string string) (v : string) : Prop :=
  e !! v = None ∨ e !! v = Some "".

Definition missingMessage (v : string) : string :=
  "環境変数 " +:+ v +:+ " が設定されていません。".

Definition noDotenvMessage : string := "環境変数ファイルが読み込めませんでした。".

(** What reading [.env] writes to the log. *)
Definition dotenvLog (dotenv : option (list (string * string))) : list string :=
  match dotenv with
  | None => [noDotenvMessage]
  | Some _ => []
  end.

(** A process whose environment has every variable but the password,
    and one that has all five. *)
Definition withoutPassword : Startup.Process :=
  {| Startup.environ :=
       list_to_map [("MYSQL_HOST", "db"); ("MYSQL_USER", "minori");
                    ("MYSQL_PASSWORD", ""); ("MYSQL_DATABASE", "minori");
                    ("MYSQL_PORT", "3306")];
     Startup.stderr := [] |}.

(** A process with GIN_MODE=production, a mode the framework does
    not know, and an empty password. *)
Definition unknownMode : Startup.Process :=
  {| Startup.environ :=
       list_to_map [("GIN_MODE", "production");
                    ("MYSQL_HOST", "db"); ("MYSQL_USER", "minori");
                    ("MYSQL_PASSWORD", ""); ("MYSQL_DATABASE", "minori");
                    ("MYSQL_PORT", "3306")];
     Startup.stderr := [] |}.

Definition fullyConfigured : Startup.Process :=
  {| Startup.environ :=
       list_to_map [("MYSQL_HOST", "db"); ("MYSQL_USER", "minori");
                    ("MYSQL_PASSWORD", "secret"); ("MYSQL_DATABASE", "minori");
                    ("MYSQL_PORT", "3306")];
     Startup.stderr := [] |}.

(** A store whose rows all end no earlier than they start. *)
Definition wellFormedDB (db : DB) : Prop :=
  match db with
  | Reachable rows => Forall (λ s, (StartedAt s ≤ EndedAt s)%Z) rows
  | Slow rows _ => Forall (λ s, (StartedAt s ≤ EndedAt s)%Z) rows
  | Failing _ => True
  end.

(** The tick deletes for this row: it starts within the next five
    minutes and ended more than ten minutes ago. *)
Definition deletesFor (now : Z) (s : ClassSchedule) : Prop :=
  (now ≤ StartedAt s ≤ now + 5 * Minute ∧ EndedAt s + 10 * Minute < now)%Z.

(** The value of a variable as [os.Getenv] gives it. *)
Definition getenv (p : Startup.Process) (key : string) : string :=
  default "" (Startup.environ p !! key).

Definition logAppend (p : Startup.Process) (lines : list string)
  : Startup.Process :=
  {| Startup.environ := Startup.environ p;
     Startup.stderr := Startup.stderr p ++ lines |}.

(** The process an outcome leaves behind. *)
Definition processOf {A} (o : Startup.Outcome A) : Startup.Process :=
  match o with
  | Startup.Return _ p => p
  | Startup.Exit _ p => p
  | Startup.Panic _ p => p
  end.

(** The mode [configureGinMode] hands to [gin.SetMode], and whether
    [gin.SetMode] knows it. *)
Definition ginModeOf (p : Startup.Process) : string :=
  if String.eqb (getenv p "GIN_MODE") "" then "release"
  else getenv p "GIN_MODE".

Definition knownGinMode (p : Startup.Process) : bool :=
  String.eqb (ginModeOf p) "debug" || String.eqb (ginModeOf p) "release"
  || String.eqb (ginModeOf p) "test".

(** What the logger has printed over a sequence of ticks. *)
Definition printedBy (ticks : list Tick) : list string :=
  concat (List.map (λ tk, printed (tickDB tk)) ticks).

(** The first required variable, in the order of the list, that
    [os.Getenv] gives as empty. *)
Definition firstMissing (e : gmap string string) : option string :=
  List.find (λ v, String.eqb (default "" (e !! v)) "") Startup.requiredVars.

(** Decimal numerals: the part after an optional sign, whether it is
    made of digits only, and its value. *)
Definition isDigit (c : ascii) : bool :=
  match Strconv.digit c with
  | Some _ => true
  | None => false
  end.

Fixpoint allDigits (s : string) : bool :=
  match s with
  | EmptyString => true
  | String c rest => isDigit c && allDigits rest
  end.

Fixpoint decimalValue (s : string) (acc : Z) : Z :=
  match s with
  | EmptyString => acc
  | String c rest => decimalValue rest (acc * 10 + default 0%Z (Strconv.digit c))
  end.

Definition isNegative (s : string) : bool :=
  match s with
  | String c _ => Ascii.eqb c "-"%char
  | EmptyString => false
  end.

Definition unsignedPart (s : string) : string :=
  match s with
  | String c rest =>
      if Ascii.eqb c "-"%char || Ascii.eqb c "+"%char then rest else s
  | EmptyString => EmptyString
  end.

Definition intValue (s : string) : Z :=
  let v := decimalValue (unsignedPart s) 0 in
  if isNegative s then (- v)%Z else v.

(** An optional sign followed by at least one digit, with a value in
    the range of [int64]. *)
Definition wellFormedInt (s : string) : bool :=
  negb (String.eqb (unsignedPart s) "") && allDigits (unsignedPart s)
  && (- 2 ^ 63 <=? intValue s)%Z && (intValue s <=? 2 ^ 63 - 1)%Z.

(** A quoting function for examples: the text between two quote
    characters. *)
Definition plainQuote (s : string) : string :=
  String (ascii_of_nat 34) s +:+ String (ascii_of_nat 34) EmptyString.

Definition withPort (port : string) : Startup.Process :=
  {| Startup.environ :=
       list_to_map [("MYSQL_HOST", "db"); ("MYSQL_USER", "minori");
                    ("MYSQL_PASSWORD", "secret"); ("MYSQL_DATABASE", "minori");
                    ("MYSQL_PORT", port)];
     Startup.stderr := [] |}.

(** A handler that records an error after it has answered 404. *)
Definition failsAfterAnswer : Gin.Context → Gin.Context :=
  λ c, let c := Gin.JSON 404 [("error", "not found")] c in
       {| Gin.request := Gin.request c; Gin.header := Gin.header c;
          Gin.status := Gin.status c; Gin.written := Gin.written c;
          Gin.aborted := Gin.aborted c; Gin.Errors := [{| Gin.Err := "record not found"; Gin.Meta := None |}];
          Gin.body := Gin.body c; Gin.caller := Gin.caller c |}.

(** The configuration line [InitDB] logs for a process, and the handle
    it returns for a port. *)
Definition configOf (p : Startup.Process) : string :=
  Migration.configLine (getenv p "MYSQL_USER") (getenv p "MYSQL_PASSWORD")
    (getenv p "MYSQL_DATABASE") (getenv p "MYSQL_HOST") (getenv p "MYSQL_PORT").

Definition handleOf (p : Startup.Process) (portInt : Z) : Migration.DBHandle :=
  {| Migration.DSN :=
       Migration.formatDSN (getenv p "MYSQL_USER") (getenv p "MYSQL_PASSWORD")
         (getenv p "MYSQL_HOST") portInt (getenv p "MYSQL_DATABASE");
     Migration.MaxIdleConns := 10;
     Migration.MaxOpenConns := 100;
     Migration.ConnMaxLifetime := 60 * Clock.Minute |}.

(** * Properties *)

(** ** The reconciler *)
Example roomID_42 : roomID {| ID := 42; StartedAt := 0; EndedAt := 0 |} = "class_42".
Proof. reflexivity. Qed.

Section ReconcilerFacts.
Local Open Scope Z_scope.
Implicit Types (now : Z) (s : ClassSchedule) (w : World)
         (rows : list ClassSchedule).

Lemma perSchedule_manager now w s :
  manager (perSchedule now w s) =
  if pastGrace now s then manager w ∖ {[roomID s]} else manager w.
Proof.
  unfold perSchedule, DeleteBroadcast.
  destruct (pastGrace now s); [|done].
  case_decide; simpl; [done|]. set_solver.
Qed.

Lemma perSchedule_logged now w s : logged (perSchedule now w s) = logged w.
Proof.
  unfold perSchedule. destruct (pastGrace now s); [|done].
  by destruct (DeleteBroadcast _ _).
Qed.

Lemma foldl_perSchedule_logged now rows w :
  logged (foldl (perSchedule now) w rows) = logged w.
Proof.
  revert w. induction rows as [|s rows IH]; intros w; simpl; [done|].
  by rewrite IH, perSchedule_logged.
Qed.

Lemma foldl_perSchedule_manager now rows w :
  manager (foldl (perSchedule now) w rows) =
  manager w ∖ list_to_set (roomID <$> List.filter (pastGrace now) rows).
Proof.
  revert w. induction rows as [|s rows IH]; intros w; simpl.
  - set_solver.
  - rewrite IH, perSchedule_manager.
    destruct (pastGrace now s); simpl; set_solver.
Qed.

Lemma filter_filter_andb {A} (f g : A → bool) (l : list A) :
  List.filter g (List.filter f l) = List.filter (λ x, f x && g x) l.
Proof.
  induction l as [|x l IH]; simpl; [done|].
  destruct (f x); simpl; [|done]. destruct (g x); by rewrite IH.
Qed.

(** The registry after a tick: the rooms of the doomed rows are
    gone, nothing else changes. *)
Lemma tick_manager now rows w :
  manager (tick now (Reachable rows) w) =
  manager w ∖ list_to_set (roomID <$> List.filter (doomed now) rows).
Proof.
  unfold tick; cbn [Find].
  by rewrite foldl_perSchedule_manager, filter_filter_andb.
Qed.

Lemma tick_manager_slow now rows trace w :
  manager (tick now (Slow rows trace) w) =
  manager w ∖ list_to_set (roomID <$> List.filter (doomed now) rows).
Proof.
  unfold tick; cbn [Find].
  by rewrite foldl_perSchedule_manager, filter_filter_andb.
Qed.


Lemma tick_logged now db w :
  logged (tick now db w) = logged w ++ printed db.
Proof.
  unfold tick. destruct (Find db (queryCond now)) as [rows e].
  by rewrite foldl_perSchedule_logged.
Qed.

Lemma tick_manager_subseteq now db w : manager (tick now db w) ⊆ manager w.
Proof.
  destruct db as [rows|rows trace|trace];
    [rewrite tick_manager; set_solver
    |rewrite tick_manager_slow; set_solver
    |done].
Qed.

(** When the tick deletes: the class starts within the next five
    minutes and ended more than ten minutes ago. *)
Lemma doomed_spec now s :
  doomed now s = true ↔
  now ≤ StartedAt s ≤ now + 5 * Minute ∧ EndedAt s + 10 * Minute < now.
Proof.
  unfold doomed, queryCond, startsWithinLead, endedWithinGrace, pastGrace,
    After, Add.
  rewrite andb_true_iff, orb_true_iff, !andb_true_iff,
    !Z.leb_le, Z.ltb_lt.
  unfold Minute, Second, Millisecond, Microsecond, Nanosecond. lia.
Qed.

Lemma doomed_ends_before_start now s :
  StartedAt s ≤ EndedAt s → doomed now s = false.
Proof.
  intros Hwf. apply not_true_is_false. rewrite doomed_spec.
  unfold Minute, Second, Millisecond, Microsecond, Nanosecond. lia.
Qed.

(** No class that ends after it starts ever has its room deleted by
    a tick. *)
Lemma tick_never_deletes_ended_class now rows w :
  Forall (λ s, StartedAt s ≤ EndedAt s) rows →
  manager (tick now (Reachable rows) w) = manager w.
Proof.
  intros Hwf. rewrite tick_manager.
  replace (List.filter (doomed now) rows) with (@nil ClassSchedule);
    [set_solver|].
  induction Hwf as [|s rows Hs _ IH]; simpl; [done|].
  by rewrite doomed_ends_before_start.
Qed.

Lemma forLoop_status ticks w : (forLoop ticks w).2 = Blocked.
Proof. revert w. induction ticks as [|tk ticks IH]; intros w; simpl; auto. Qed.

Lemma forLoop_app ticks1 ticks2 w :
  forLoop (ticks1 ++ ticks2) w = forLoop ticks2 (forLoop ticks1 w).1.
Proof.
  revert w. induction ticks1 as [|tk ticks1 IH]; intros w; simpl; auto.
Qed.
End ReconcilerFacts.

Section ReconcilerClaims.
Local Open Scope Z_scope.

Example endedElevenAgo_pastGrace : pastGrace t0 endedElevenAgo = true.
Proof. reflexivity. Qed.

Example endedElevenAgo_not_read : queryCond t0 endedElevenAgo = false.
Proof. reflexivity. Qed.

Example startsInFour_read : queryCond t0 startsInFour = true.
Proof. reflexivity. Qed.

Example endsBeforeStart_doomed : doomed t0 endsBeforeStart = true.
Proof. reflexivity. Qed.

(** C1, at the failing input: the class with id 42 ended eleven
    minutes before the tick, the grace test [now.After(endedAt + 10
    min)] holds for it, and the room class_42 exists; the query of the
    tick does not return the row, so the room is still there after
    the tick. *)
Theorem C1_room_survives_past_grace :
  pastGrace t0 endedElevenAgo = true ∧
  roomID endedElevenAgo = "class_42" ∧
  Find (Reachable [endedElevenAgo]) (queryCond t0) = ([], None) ∧
  tick t0 (Reachable [endedElevenAgo]) (withRooms {["class_42"]})
    = withRooms {["class_42"]}.
Proof. repeat split. Qed.

(** The half of C1 that the code keeps: a schedule that ended less
    than ten minutes before the tick, or exactly ten, is not a reason
    for the tick to delete. *)
Lemma tick_keeps_room_within_grace now s :
  now - 10 * Minute ≤ EndedAt s → doomed now s = false.
Proof.
  intros H. apply not_true_is_false. rewrite doomed_spec. lia.
Qed.

(** C2 as stated fails: the class with id 42 starts four minutes
    after the tick and no room class_42 exists; after the tick there
    is still no such room, where a call of [CreateRoom] would have
    left one. *)
Lemma C2_counterexample :
  startsWithinLead t0 startsInFour = true ∧
  roomID startsInFour = "class_42" ∧
  "class_42" ∈ (CreateBroadcast (roomID startsInFour) ∅).1 ∧
  ¬ ("class_42" ∈ manager (tick t0 (Reachable [startsInFour]) (withRooms ∅))).
Proof.
  split; [reflexivity|]. split; [reflexivity|]. split.
  - simpl. set_solver.
  - rewrite tick_manager. set_solver.
Qed.

(** C2, amended: a schedule that starts within the next five minutes
    is returned by the query of the tick and its room identifier is
    class_<id>, but the tick creates no room: every room present
    after a tick was present before it.  A schedule that starts in
    six minutes and has not ended is not even returned by the
    query. *)
Theorem C2_tick_reads_lead_window_creates_nothing now db w :
  manager (tick now db w) ⊆ manager w ∧
  (∀ s rows, s ∈ rows → now ≤ StartedAt s ≤ now + 5 * Minute →
     s ∈ (Find (Reachable rows) (queryCond now)).1 ∧
     roomID s = "class_" +:+ pretty (ID s)) ∧
  (∀ s rows, StartedAt s = now + 6 * Minute → StartedAt s ≤ EndedAt s →
     (s ∉ (Find (Reachable rows) (queryCond now)).1) ∧
     (roomID s ∉ manager w → roomID s ∉ manager (tick now db w))).
Proof.
  split; [apply tick_manager_subseteq|]. split.
  - intros s rows Hin Hlead. split; [|done]. simpl.
    apply list_elem_of_In, filter_In. split; [by apply list_elem_of_In|].
    unfold queryCond, startsWithinLead, Add.
    apply orb_true_iff; left. apply andb_true_iff.
    rewrite !Z.leb_le. lia.
  - intros s rows Hs Hwf. split.
    + simpl. rewrite list_elem_of_In, filter_In. intros [_ Hq].
      unfold queryCond, startsWithinLead, endedWithinGrace, Add in Hq.
      rewrite orb_true_iff, !andb_true_iff, !Z.leb_le in Hq.
      unfold Minute, Second, Millisecond, Microsecond, Nanosecond in *. lia.
    + intros Hnot Hin. apply Hnot. by apply (tick_manager_subseteq now db w).
Qed.

Lemma C2_tick_reads_lead_window_creates_nothing_witness :
  (startsInFour ∈ (Find (Reachable [startsInFour]) (queryCond t0)).1 ∧
   roomID startsInFour = "class_" +:+ pretty (ID startsInFour)) ∧
  (startsInSix ∉ (Find (Reachable [startsInSix]) (queryCond t0)).1) ∧
  (roomID startsInSix ∉ manager (tick t0 (Reachable [startsInSix]) (withRooms ∅))).
Proof.
  pose proof (C2_tick_reads_lead_window_creates_nothing
                t0 (Reachable [startsInSix]) (withRooms ∅)) as (_ & Hlead & Hsix).
  split; [|].
  - apply (Hlead startsInFour [startsInFour]).
    + apply list_elem_of_here.
    + split; vm_compute; discriminate.
  - destruct (Hsix startsInSix [startsInSix]) as [Hq Hroom].
    + reflexivity.
    + vm_compute; discriminate.
    + split; [exact Hq|]. apply Hroom. simpl. apply not_elem_of_empty.
Defined.

(** C3 as stated fails: the stop signal of the process arrives, then
    the ticker fires; the loop has not returned, it runs the tick and
    deletes a room. *)
Lemma C3_counterexample :
  let tk := {| tickNow := t0; tickDB := Reachable [endsBeforeStart] |} in
  let w0 := withRooms {["class_7"]} in
  manageChatRooms [QuitSignal; TickerC tk] w0 = (tick t0 (tickDB tk) w0, Blocked) ∧
  "class_7" ∈ manager w0 ∧
  ("class_7" ∉ manager (manageChatRooms [QuitSignal; TickerC tk] w0).1) ∧
  (manageChatRooms [QuitSignal; TickerC tk] w0).2 ≠ Returned.
Proof.
  simpl. split; [reflexivity|]. split; [set_solver|]. split; [|discriminate].
  unfold manageChatRooms; simpl. rewrite tick_manager. set_solver.
Qed.

(** C3, amended: the tick loop is an unmanaged loop.  Whatever has
    happened in the process, [manageChatRooms] has not returned and
    waits for the next tick; a stop signal is not seen by it, the
    ticks that follow the signal are run like any other.  Only the
    end of the process ends the loop. *)
Theorem C3_loop_never_returns evs w :
  (manageChatRooms evs w).2 = Blocked ∧
  (∀ evs1 evs2,
     manageChatRooms (evs1 ++ QuitSignal :: evs2) w = manageChatRooms (evs1 ++ evs2) w) ∧
  (∀ tk, manageChatRooms (evs ++ [TickerC tk]) w =
         (tick (tickNow tk) (tickDB tk) (manageChatRooms evs w).1, Blocked)).
Proof.
  split; [apply forLoop_status|]. split.
  - intros evs1 evs2. unfold manageChatRooms, received.
    by rewrite !omap_app.
  - intros tk. unfold manageChatRooms, received.
    rewrite omap_app; simpl. by rewrite forLoop_app.
Qed.

(** C4: the room identifier computed for a schedule is "class_"
    followed by the decimal rendering of its id, every registry change
    of a tick is the removal of such identifiers, and two schedules
    with the same room identifier have the same id. *)
Theorem C4_roomID_of_schedule :
  (∀ s, roomID s = "class_" +:+ pretty (ID s)) ∧
  (∀ now rows w,
     manager (tick now (Reachable rows) w) =
     manager w ∖ list_to_set
       ((λ s, "class_" +:+ pretty (ID s)) <$> List.filter (doomed now) rows)) ∧
  (∀ s1 s2, roomID s1 = roomID s2 → ID s1 = ID s2).
Proof.
  split; [done|]. split; [intros; apply tick_manager|].
  intros s1 s2 H. unfold roomID, Sprintf_class_d in H.
  apply (inj (String.app "class_")) in H. by apply (inj pretty) in H.
Qed.

Lemma C4_roomID_of_schedule_witness :
  ID endedElevenAgo = ID startsInFour.
Proof.
  apply (proj2 (proj2 C4_roomID_of_schedule) endedElevenAgo startsInFour).
  reflexivity.
Defined.

Example pretty_zero : Sprintf_class_d 0 = "class_0".
Proof. reflexivity. Qed.

Example pretty_max_uint64 :
  Sprintf_class_d 18446744073709551615 = "class_18446744073709551615".
Proof. reflexivity. Qed.



Example failed_read_is_logged_then_retried :
  forLoop [ {| tickNow := t0; tickDB := Failing "dial tcp: connection refused" |};
            {| tickNow := t0 + 1 * Minute;
               tickDB := Reachable [endsBeforeStart] |} ]
          (withRooms {["class_7"]})
  = ({| manager := ∅; logged := ["dial tcp: connection refused"] |}, Blocked).
Proof. vm_compute. reflexivity. Qed.
End ReconcilerClaims.

(** ** Middleware and routes *)
Section RouterClaims.
Import Gin Middlewares Main.
Local Open Scope Z_scope.

Variable validate : string → option N.
Variable controller : Endpoint → HandlerFunc.

(** The handlers every request goes through first. *)
Lemma global_handlers :
  Handlers (root (setupRouter validate controller))
  = [Logger; Recovery; globalErrorHandler; CORS].
Proof. reflexivity. Qed.

Lemma liveRoutes_eq :
  liveRoutes validate controller =
  let chain h := [Logger; Recovery; globalErrorHandler; CORS;
                  TokenAuthMiddleware validate; controller h] in
  [ {| routeMethod := "POST"; routePath := "/api/gin/live/create-room";
       routeChain := chain CreateRoomHandler |};
    {| routeMethod := "GET";
       routePath := "/api/gin/live/start-screen-share/:roomID/:userID";
       routeChain := chain StartScreenShareHandler |};
    {| routeMethod := "GET";
       routePath := "/api/gin/live/stop-screen-share/:roomID/:userID";
       routeChain := chain StopScreenShareHandler |};
    {| routeMethod := "GET"; routePath := "/api/gin/live/view-screen-share/:roomID";
       routeChain := chain ViewScreenShareHandler |} ].
Proof. reflexivity. Qed.

Lemma setCORSHeaders_fields c :
  request (setCORSHeaders c) = request c ∧
  status (setCORSHeaders c) = status c ∧
  written (setCORSHeaders c) = written c ∧
  aborted (setCORSHeaders c) = aborted c ∧
  Errors (setCORSHeaders c) = Errors c ∧
  body (setCORSHeaders c) = body c ∧
  caller (setCORSHeaders c) = caller c.
Proof. repeat split. Qed.

Lemma AbortWithStatus_fresh code c :
  0 < code → written c = false →
  status (AbortWithStatus code c) = code ∧
  aborted (AbortWithStatus code c) = true ∧
  body (AbortWithStatus code c) = body c ∧
  Errors (AbortWithStatus code c) = Errors c.
Proof.
  intros Hpos Hw. unfold AbortWithStatus, Abort, WriteHeaderNow, Status.
  rewrite Hw. destruct (status c =? code) eqn:E; simpl.
  - apply Z.eqb_eq in E. rewrite andb_false_r. simpl. done.
  - apply Z.ltb_lt in Hpos. rewrite Hpos. simpl. done.
Qed.

Lemma CORS_options next c :
  Method (request c) = "OPTIONS" →
  CORS next c = AbortWithStatus 204 (setCORSHeaders c).
Proof.
  intros H. unfold CORS.
  destruct (setCORSHeaders_fields c) as [-> _]. by rewrite H.
Qed.

Lemma CORS_other next c :
  Method (request c) ≠ "OPTIONS" →
  CORS next c = next (setCORSHeaders c).
Proof.
  intros H. unfold CORS.
  destruct (setCORSHeaders_fields c) as [-> _].
  apply String.eqb_neq in H. by rewrite H.
Qed.

(** C9: for a request with method OPTIONS the CORS middleware answers
    204 and aborts, so that nothing behind it in the chain runs; for
    any other method it sets the four Access-Control-* headers of the
    response and hands the context, with the request as it was, to
    the rest of the chain. *)
Theorem C9_CORS_preflight_and_passthrough (next : Context → Context) (c : Context)
    (req : Request) (rest : list HandlerFunc) :
  (Method (request c) = "OPTIONS" →
     CORS next c = AbortWithStatus 204 (setCORSHeaders c) ∧
     aborted (CORS next c) = true) ∧
  (Method req = "OPTIONS" →
     let out := serve (Handlers (root (setupRouter validate controller)) ++ rest)
                      (newContext req) in
     status out = 204 ∧ aborted out = true ∧ body out = [] ∧
     out = AbortWithStatus 204 (setCORSHeaders (newContext req))) ∧
  (Method (request c) ≠ "OPTIONS" →
     CORS next c = next (setCORSHeaders c)) ∧
  request (setCORSHeaders c) = request c ∧
  header (setCORSHeaders c) !! "Access-Control-Allow-Origin"
    = Some ["http://localhost:3000"] ∧
  header (setCORSHeaders c) !! "Access-Control-Allow-Credentials"
    = Some ["true"] ∧
  header (setCORSHeaders c) !! "Access-Control-Allow-Headers"
    = Some ["Content-Type, Content-Length, Accept-Encoding, X-CSRF-Token, Authorization, accept, origin, Cache-Control, X-Requested-With"] ∧
  header (setCORSHeaders c) !! "Access-Control-Allow-Methods"
    = Some ["POST, PATCH, GET, PUT, DELETE, OPTIONS"].
Proof.
  split; [|split; [|split; [apply CORS_other|]]].
  - intros H. rewrite CORS_options by done. split; [done|].
    unfold AbortWithStatus, Abort. done.
  - intros H. rewrite global_handlers. cbn [app serve].
    unfold Logger, Recovery, globalErrorHandler.
    rewrite CORS_options by done.
    destruct (AbortWithStatus_fresh 204 (setCORSHeaders (newContext req)))
      as (Hs & Ha & Hb & He); [lia|done|].
    remember (AbortWithStatus 204 (setCORSHeaders (newContext req))) as out.
    cbv zeta. rewrite He. simpl. by rewrite Hs, Ha, Hb.
  - split; [done|]. unfold setCORSHeaders, HeaderSet; simpl.
    repeat split; by simplify_map_eq.
Qed.

End RouterClaims.

Lemma C9_CORS_preflight_and_passthrough_witness :
  (let c := Gin.newContext preflight in
   Main.CORS (λ c, c) c = Gin.AbortWithStatus 204 (Main.setCORSHeaders c) ∧
   Gin.aborted (Main.CORS (λ c, c) c) = true) ∧
  (let out := Gin.serve
                (Gin.Handlers (Gin.root (Main.setupRouter oneToken okController))
                   ++ [Middlewares.TokenAuthMiddleware oneToken;
                       okController Main.CreateRoomHandler])
                (Gin.newContext preflight) in
   Gin.status out = 204%Z ∧ Gin.aborted out = true ∧ Gin.body out = [] ∧
   out = Gin.AbortWithStatus 204 (Main.setCORSHeaders (Gin.newContext preflight))) ∧
  (let c := Gin.newContext (createRoomPost None) in
   Main.CORS (λ c, c) c = Main.setCORSHeaders c).
Proof.
  split; [|split].
  - apply (proj1 (C9_CORS_preflight_and_passthrough oneToken okController
                    (λ c, c) (Gin.newContext preflight) preflight [])).
    reflexivity.
  - apply (proj1 (proj2 (C9_CORS_preflight_and_passthrough oneToken okController
                           (λ c, c) (Gin.newContext preflight) preflight
                           [Middlewares.TokenAuthMiddleware oneToken;
                            okController Main.CreateRoomHandler]))).
    reflexivity.
  - apply (proj1 (proj2 (proj2 (C9_CORS_preflight_and_passthrough oneToken okController
                           (λ c, c) (Gin.newContext (createRoomPost None))
                           preflight [])))).
    simpl. discriminate.
Defined.

Section LiveRouteClaims.
Import Gin Middlewares Main.
Local Open Scope Z_scope.

Variable validate : string → option N.
Variable controller : Endpoint → HandlerFunc.

Lemma TokenAuth_rejects next c :
  bearer (request c) ≫= validate = None →
  TokenAuthMiddleware validate next c = AbortWithStatus 401 c.
Proof. intros H. unfold TokenAuthMiddleware. by rewrite H. Qed.

Lemma TokenAuth_accepts next c uid :
  bearer (request c) ≫= validate = Some uid →
  TokenAuthMiddleware validate next c = next (setCaller uid c).
Proof. intros H. unfold TokenAuthMiddleware. by rewrite H. Qed.

(** What a chain of the live group answers to a request without a
    valid credential, whatever the handler at its end. *)
Lemma live_chain_unauthorized (h : HandlerFunc) (req : Request) :
  Method req ≠ "OPTIONS" →
  bearer req ≫= validate = None →
  serve [Logger; Recovery; globalErrorHandler; CORS;
         TokenAuthMiddleware validate; h] (newContext req)
  = AbortWithStatus 401 (setCORSHeaders (newContext req)).
Proof.
  intros Hm Hb. cbn [serve]. unfold Logger, Recovery, globalErrorHandler.
  rewrite CORS_other by done.
  rewrite TokenAuth_rejects by done.
  destruct (AbortWithStatus_fresh 401 (setCORSHeaders (newContext req)))
    as (_ & _ & _ & He); [lia|done|].
  remember (AbortWithStatus 401 (setCORSHeaders (newContext req))) as out.
  cbv zeta. by rewrite He.
Qed.

(** With a valid credential the handler of the route runs, on a
    context that carries the caller identity. *)
Lemma live_chain_authorized (h : HandlerFunc) (req : Request) (uid : N) :
  Method req ≠ "OPTIONS" →
  bearer req ≫= validate = Some uid →
  serve [CORS; TokenAuthMiddleware validate; h] (newContext req)
  = h (λ c, c) (setCaller uid (setCORSHeaders (newContext req))).
Proof.
  intros Hm Hb. cbn [serve].
  rewrite CORS_other by done. by rewrite (TokenAuth_accepts _ _ uid).
Qed.

(** C5: the four routes of the live group have the token validation
    in their chain, directly before their handler; a request to one
    of them that carries no valid credential is answered 401
    Unauthorized by the validation, the chain is aborted and the
    answer does not depend on the handler, which is never run. *)
Theorem C5_live_routes_behind_token_validation :
  (λ r, (routeMethod r, routePath r)) <$> liveRoutes validate controller
    = [("POST", "/api/gin/live/create-room");
       ("GET", "/api/gin/live/start-screen-share/:roomID/:userID");
       ("GET", "/api/gin/live/stop-screen-share/:roomID/:userID");
       ("GET", "/api/gin/live/view-screen-share/:roomID")] ∧
  (∀ r, r ∈ liveRoutes validate controller →
     ∃ h, routeChain r =
          Handlers (root (setupRouter validate controller))
            ++ [TokenAuthMiddleware validate; h]) ∧
  (∀ r req, r ∈ liveRoutes validate controller →
     Method req = routeMethod r →
     bearer req ≫= validate = None →
     let out := serve (routeChain r) (newContext req) in
     status out = 401 ∧ aborted out = true ∧ body out = [] ∧
     caller out = None ∧
     out = AbortWithStatus 401 (setCORSHeaders (newContext req))).
Proof.
  split; [reflexivity|]. split.
  - intros r Hr. rewrite liveRoutes_eq in Hr. cbv zeta in Hr.
    rewrite global_handlers.
    repeat (apply elem_of_cons in Hr as [->|Hr]); [eauto..|].
    by apply elem_of_nil in Hr.
  - intros r req Hr Hm Hb.
    assert (Method req ≠ "OPTIONS" ∧
            ∃ h, routeChain r = [Logger; Recovery; globalErrorHandler; CORS;
                                 TokenAuthMiddleware validate; h]) as [Hno [h Hc]].
    { rewrite liveRoutes_eq in Hr. cbv zeta in Hr.
      repeat (apply elem_of_cons in Hr as [->|Hr]);
        [simpl in Hm; rewrite Hm; split; [discriminate|eauto]..|].
      by apply elem_of_nil in Hr. }
    rewrite Hc. cbv zeta. rewrite live_chain_unauthorized by done.
    destruct (AbortWithStatus_fresh 401 (setCORSHeaders (newContext req)))
      as (Hs & Ha & Hbd & _); [lia|done|].
    by rewrite Hs, Ha, Hbd.
Qed.
End LiveRouteClaims.

Lemma C5_live_routes_behind_token_validation_witness :
  let r := {| Gin.routeMethod := "POST";
              Gin.routePath := "/api/gin/live/create-room";
              Gin.routeChain :=
                [Gin.Logger; Gin.Recovery; Main.globalErrorHandler; Main.CORS;
                 Middlewares.TokenAuthMiddleware oneToken;
                 okController Main.CreateRoomHandler] |} in
  (∃ h, Gin.routeChain r =
        Gin.Handlers (Gin.root (Main.setupRouter oneToken okController))
          ++ [Middlewares.TokenAuthMiddleware oneToken; h]) ∧
  (let out := Gin.serve (Gin.routeChain r)
                (Gin.newContext (createRoomPost (Some "forged"))) in
   Gin.status out = 401%Z ∧ Gin.aborted out = true ∧ Gin.body out = [] ∧
   Gin.caller out = None ∧
   out = Gin.AbortWithStatus 401
           (Main.setCORSHeaders (Gin.newContext (createRoomPost (Some "forged"))))).
Proof.
  intros r.
  assert (r ∈ Main.liveRoutes oneToken okController) as Hr
    by (rewrite liveRoutes_eq; apply list_elem_of_here).
  split.
  - apply (proj1 (proj2 (C5_live_routes_behind_token_validation
                           oneToken okController)) r Hr).
  - apply (proj2 (proj2 (C5_live_routes_behind_token_validation
                           oneToken okController))
             r (createRoomPost (Some "forged")) Hr); reflexivity.
Defined.

Example createRoom_with_token_reaches_handler :
  Gin.serve [Gin.Logger; Gin.Recovery; Main.globalErrorHandler; Main.CORS;
             Middlewares.TokenAuthMiddleware oneToken;
             okController Main.CreateRoomHandler]
            (Gin.newContext (createRoomPost (Some "valid-token")))
  = Gin.JSON 200 [("message", "ok")]
      (Gin.setCaller 5 (Main.setCORSHeaders
                          (Gin.newContext (createRoomPost (Some "valid-token"))))).
Proof. vm_compute. reflexivity. Qed.

(** ** Direct messages *)
Section DirectMessageClaims.
Import DirectMessages.
Local Open Scope N_scope.

Lemma canonicalPairKey_comm a b : canonicalPairKey a b = canonicalPairKey b a.
Proof.
  unfold canonicalPairKey.
  destruct (N.leb_spec a b), (N.leb_spec b a); try done; [|lia].
  assert (a = b) as -> by lia. done.
Qed.

Lemma Send_then_Get c st a b :
  let '(st1, m) := SendDirectMessage (sendFrom c) (sendTo c) (sendText c)
                     (sendAt c) st in
  unorderedPairKey m = canonicalPairKey (sendFrom c) (sendTo c) ∧
  GetDirectMessages a b st1 =
    GetDirectMessages a b st ++ between a b [m].
Proof.
  unfold SendDirectMessage, GetDirectMessages, between; simpl.
  split; [done|]. case_bool_decide as Hk.
  - rewrite Hk. by rewrite lookup_insert_eq.
  - rewrite lookup_insert_ne by done. by rewrite app_nil_r.
Qed.

Lemma between_cons a b m ms : between a b (m :: ms) = between a b [m] ++ between a b ms.
Proof. unfold between; simpl. by case_bool_decide. Qed.

(** Reading after a history: what was there, then the messages of
    the pair in the order they were sent. *)
Lemma history_then_Get calls st a b :
  GetDirectMessages a b (history calls st).1 =
  GetDirectMessages a b st ++ between a b (history calls st).2.
Proof.
  revert st. induction calls as [|c calls IH]; intros st; cbn [history].
  - cbn [fst snd]. unfold between; simpl. by rewrite app_nil_r.
  - pose proof (Send_then_Get c st a b) as Hs.
    destruct (SendDirectMessage _ _ _ _ st) as [st1 m].
    destruct Hs as [_ Hs]. specialize (IH st1).
    destruct (history calls st1) as [st2 ms]. cbn [fst snd] in *.
    by rewrite IH, Hs, (between_cons a b m ms), app_assoc.
Qed.

(** C6: after any history of sends, reading the conversation of A
    and B gives the same sequence as reading that of B and A, and it
    is the sequence of the messages sent between the two, in either
    direction, in send order. *)
Theorem C6_direct_messages_symmetric (calls : list Send) (a b : N) :
  let r := history calls emptyStore in
  GetDirectMessages a b r.1 = GetDirectMessages b a r.1 ∧
  GetDirectMessages a b r.1 = between a b r.2 ∧
  GetDirectMessages a b r.1 =
    List.filter (λ m, bool_decide (unorderedPairKey m = canonicalPairKey b a)) r.2.
Proof.
  cbv zeta. split; [|split].
  - unfold GetDirectMessages. by rewrite canonicalPairKey_comm.
  - by rewrite history_then_Get.
  - rewrite history_then_Get. unfold between.
    by rewrite (canonicalPairKey_comm a b).
Qed.

Example conversation_both_directions :
  let r := history [ {| sendFrom := 1; sendTo := 2; sendText := "hi"; sendAt := 10 |};
                     {| sendFrom := 1; sendTo := 3; sendText := "yo"; sendAt := 11 |};
                     {| sendFrom := 2; sendTo := 1; sendText := "hello"; sendAt := 12 |} ]
                   emptyStore in
  dmBody <$> GetDirectMessages 2 1 r.1 = ["hi"; "hello"] ∧
  senderUserID <$> GetDirectMessages 1 2 r.1 = [1; 2].
Proof. split; reflexivity. Qed.
End DirectMessageClaims.

(** ** Live sessions *)
Section LiveSessionClaims.
Import LiveClass.
Implicit Types (reg : gmap string LiveSession) (r : string) (u : N).

Lemma View_insert_eq r reg p s :
  ViewScreenShare r (<[r := setPresenter p s]> reg) = p.
Proof. unfold ViewScreenShare, sessionOf. by rewrite lookup_insert_eq. Qed.

Lemma View_insert_ne r r' reg s :
  r' ≠ r → ViewScreenShare r (<[r' := s]> reg) = ViewScreenShare r reg.
Proof.
  intros H. unfold ViewScreenShare, sessionOf. by rewrite lookup_insert_ne.
Qed.

(** One call keeps the account of the answers in step with the
    registry. *)
Lemma presenting_eq r reg :
  presenting r reg =
  match presenterUserID (sessionOf r reg) with Some u => [u] | None => [] end.
Proof. done. Qed.

(** One call keeps the account of the answers in step with the
    registry. *)
Lemma exec_account c reg r :
  account r (presenting r reg) (c, (exec c reg).2)
  = presenting r (exec c reg).1.
Proof.
  destruct c as [r' u|r' u]; simpl.
  - unfold StartScreenShare.
    destruct (presenterUserID (sessionOf r' reg)) as [other|] eqn:E.
    + destruct (decide (other = u)) as [->|Hne]; simpl; [|done].
      destruct (decide (r' = r)) as [->|]; [|done].
      assert (presenting r reg = [u]) as -> by (by rewrite presenting_eq, E).
      rewrite decide_True; [done|apply list_elem_of_here].
    + simpl. destruct (decide (r' = r)) as [->|Hr].
      * assert (presenting r reg = []) as -> by (by rewrite presenting_eq, E).
        rewrite decide_False by apply not_elem_of_nil.
        unfold presenting. by rewrite View_insert_eq.
      * unfold presenting. by rewrite View_insert_ne.
  - unfold StopScreenShare.
    destruct (decide (presenterUserID (sessionOf r' reg) = Some u)) as [E|E];
      simpl; [|done].
    destruct (decide (r' = r)) as [->|Hr].
    + assert (presenting r reg = [u]) as -> by (by rewrite presenting_eq, E).
      simpl. rewrite N.eqb_refl. simpl.
      unfold presenting. by rewrite View_insert_eq.
    + unfold presenting. by rewrite View_insert_ne.
Qed.

Lemma run_account cs reg r :
  foldl (account r) (presenting r reg) (run cs reg).2
  = presenting r (run cs reg).1.
Proof.
  revert reg. induction cs as [|c cs IH]; intros reg; cbn [run]; [done|].
  pose proof (exec_account c reg r) as Hc.
  destruct (exec c reg) as [reg1 e]. specialize (IH reg1).
  destruct (run cs reg1) as [reg2 es]. cbn [fst snd foldl] in *.
  by rewrite Hc.
Qed.

(** C7: after any sequence of start and stop calls, the users who
    hold the presenter role of a room according to the answers given
    (entered by a successful start, left by a successful stop) are
    exactly the presenter recorded in the session, so at most one.
    A start fails with Conflict while another user presents, succeeds
    without a change for the presenter, and otherwise makes the user
    the presenter of that room only. *)
Theorem C7_single_presenter :
  (∀ cs r, let res := run cs ∅ in
     holders r res.2 = presenting r res.1 ∧ length (holders r res.2) ≤ 1) ∧
  (∀ reg r u other,
     ViewScreenShare r reg = Some other → other ≠ u →
     StartScreenShare r u reg = (reg, Some Conflict)) ∧
  (∀ reg r u,
     ViewScreenShare r reg = Some u → StartScreenShare r u reg = (reg, None)) ∧
  (∀ reg r u,
     ViewScreenShare r reg = None →
     (StartScreenShare r u reg).2 = None ∧
     ViewScreenShare r (StartScreenShare r u reg).1 = Some u ∧
     ∀ r', r' ≠ r →
       ViewScreenShare r' (StartScreenShare r u reg).1 = ViewScreenShare r' reg).
Proof.
  split; [|split; [|split]].
  - intros cs r res. subst res.
    assert (holders r (run cs ∅).2 = presenting r (run cs ∅).1) as ->
      by (unfold holders; rewrite <- (run_account cs ∅ r);
          unfold presenting, ViewScreenShare, sessionOf;
          by rewrite lookup_empty).
    split; [done|]. unfold presenting.
    destruct (ViewScreenShare r (run cs ∅).1); simpl; lia.
  - intros reg r u other Hv Hne. unfold StartScreenShare.
    unfold ViewScreenShare in Hv. rewrite Hv. by rewrite decide_False.
  - intros reg r u Hv. unfold StartScreenShare.
    unfold ViewScreenShare in Hv. rewrite Hv. by rewrite decide_True.
  - intros reg r u Hv. unfold StartScreenShare.
    pose proof Hv as Hv'. unfold ViewScreenShare in Hv'. rewrite Hv'. simpl.
    split; [done|]. split; [apply View_insert_eq|].
    intros r' Hr. by apply View_insert_ne.
Qed.

Lemma C7_single_presenter_witness :
  let reg := (run [Start "class_42" 1] ∅).1 in
  StartScreenShare "class_42" 2 reg = (reg, Some Conflict) ∧
  StartScreenShare "class_42" 1 reg = (reg, None) ∧
  ((StartScreenShare "class_42" 1 ∅).2 = None ∧
   ViewScreenShare "class_42" (StartScreenShare "class_42" 1 ∅).1 = Some 1%N).
Proof.
  intros reg. split; [|split].
  - apply (proj1 (proj2 C7_single_presenter) reg "class_42" 2%N 1%N);
      [reflexivity|discriminate].
  - apply (proj1 (proj2 (proj2 C7_single_presenter)) reg "class_42" 1%N).
    reflexivity.
  - assert (ViewScreenShare "class_42" ∅ = None) as H0 by reflexivity.
    destruct (proj2 (proj2 (proj2 C7_single_presenter)) ∅ "class_42" 1%N H0)
      as (H1 & H2 & _).
    split; assumption.
Defined.

Example two_users_one_presenter :
  (run [Start "class_42" 1; Start "class_42" 2; Start "class_42" 1;
        Stop "class_42" 2; Stop "class_42" 1; Start "class_42" 2] ∅).2
  = [(Start "class_42" 1, None); (Start "class_42" 2, Some Conflict);
     (Start "class_42" 1, None); (Stop "class_42" 2, Some Conflict);
     (Stop "class_42" 1, None); (Start "class_42" 2, None)].
Proof. reflexivity. Qed.
End LiveSessionClaims.

(** ** Start-up *)
Section StartupClaims.
Import Startup.
Local Open Scope Z_scope.
Implicit Types (p : Process) (e : gmap string string).

Lemma unsetOrEmpty_Getenv e v : unsetOrEmpty e v ↔ default "" (e !! v) = "".
Proof.
  unfold unsetOrEmpty. destruct (e !! v) as [x|]; simpl.
  - split; [intros [?|?]; congruence | intros ->; by right].
  - split; [done | by left].
Qed.

(** The loop over the required variables ends the process at the
    first one that is unset or empty. *)
Lemma checkVars_fatal vars p :
  (∃ v, v ∈ vars ∧ unsetOrEmpty (environ p) v) →
  ∃ v, v ∈ vars ∧ unsetOrEmpty (environ p) v ∧
       checkVars vars p =
       Exit 1 {| environ := environ p;
                 stderr := stderr p ++ [missingMessage v] |}.
Proof.
  induction vars as [|x vars IH]; intros (v & Hin & Hv).
  - by apply elem_of_nil in Hin.
  - cbn [checkVars]. unfold bind, Getenv.
    destruct (String.eqb (default "" (environ p !! x)) "") eqn:E.
    + apply String.eqb_eq in E. exists x. split; [apply list_elem_of_here|].
      split; [by apply unsetOrEmpty_Getenv|done].
    + apply String.eqb_neq in E.
      apply elem_of_cons in Hin as [->|Hin].
      { by apply unsetOrEmpty_Getenv in Hv. }
      destruct IH as (v' & Hin' & Hv' & Hc); [by exists v|].
      exists v'. split; [by apply list_elem_of_further|]. by split.
Qed.

Lemma checkVars_pass vars p :
  Forall (λ v, ¬ unsetOrEmpty (environ p) v) vars →
  checkVars vars p = Return tt p.
Proof.
  induction 1 as [|x vars Hx _ IH]; [done|].
  cbn [checkVars]. unfold bind, Getenv.
  rewrite unsetOrEmpty_Getenv in Hx. apply String.eqb_neq in Hx.
  by rewrite Hx.
Qed.

(** [ensureEnvVariables] is the check of the variables on the loaded
    environment, after the log line for a missing [.env]. *)
Lemma ensureEnvVariables_unfold dotenv p :
  ensureEnvVariables dotenv p =
  checkVars requiredVars
    {| environ := loadedEnv dotenv p;
       stderr := stderr p ++ dotenvLog dotenv |}.
Proof.
  unfold ensureEnvVariables, bind, godotenv_Load, Println, ret.
  destruct dotenv as [kvs|]; simpl; [|done].
  by rewrite app_nil_r.
Qed.

Lemma main_unfold dotenv dbUp redisUp migrates p :
  main dotenv dbUp redisUp migrates p =
  if knownGinMode p then
    match ensureEnvVariables dotenv p with
    | Return _ p' =>
        (let* _ := initializeDatabase dbUp in
         let* _ := initializeRedis redisUp in
         let* _ := migrateDatabaseIfNeeded migrates in
         startServer) p'
    | Exit code p' => Exit code p'
    | Panic value p' => Panic value p'
    end
  else Panic ("gin mode unknown: " +:+ ginModeOf p
                +:+ " (available mode: debug release test)") p.
Proof.
  unfold main, configureGinMode, getEnvOrDefault, SetMode, Getenv, bind, ret,
    knownGinMode, ginModeOf, getenv.
  destruct (String.eqb (default "" (environ p !! "GIN_MODE")) "") eqn:E;
    [done|].
  rewrite E.
  destruct (String.eqb (default "" (environ p !! "GIN_MODE")) "debug");
    [done|].
  destruct (String.eqb (default "" (environ p !! "GIN_MODE")) "release");
    [done|].
  by destruct (String.eqb (default "" (environ p !! "GIN_MODE")) "test").
Qed.

(** C10: if, once [.env] has been read, one of the five MYSQL
    variables is unset or empty, [main] never gets to serve: when
    GIN_MODE is a mode the framework knows (or is not set), [main]
    ends the process with exit code 1 at the check, before the
    database is opened or the server started, and the log ends with
    the line that names such a variable; with any other GIN_MODE the
    process has panicked before that.  If only the [.env] file is
    missing, [ensureEnvVariables] writes one log line and returns. *)
Theorem C10_required_variables dotenv dbUp redisUp migrates p :
  ((∃ v, v ∈ requiredVars ∧ unsetOrEmpty (loadedEnv dotenv p) v) →
     (∀ p', main dotenv dbUp redisUp migrates p ≠ Return Serving p') ∧
     (knownGinMode p = true →
        ∃ v, v ∈ requiredVars ∧ unsetOrEmpty (loadedEnv dotenv p) v ∧
             main dotenv dbUp redisUp migrates p =
             Exit 1 {| environ := loadedEnv dotenv p;
                       stderr := (stderr p ++ dotenvLog dotenv)
                                   ++ [missingMessage v] |}) ∧
     (knownGinMode p = false →
        ∃ value, main dotenv dbUp redisUp migrates p = Panic value p)) ∧
  (Forall (λ v, ¬ unsetOrEmpty (environ p) v) requiredVars →
     ensureEnvVariables None p =
     Return tt {| environ := environ p;
                  stderr := stderr p ++ [noDotenvMessage] |}).
Proof.
  split.
  - intros Hmiss. rewrite main_unfold, ensureEnvVariables_unfold.
    set (p1 := {| environ := loadedEnv dotenv p; stderr := _ |}).
    destruct (checkVars_fatal requiredVars p1 Hmiss) as (v & Hin & Hv & Hc).
    rewrite Hc. destruct (knownGinMode p).
    + split; [done|]. split; [|done]. intros _. by exists v.
    + split; [done|]. split; [done|]. intros _. eauto.
  - intros Hall. rewrite ensureEnvVariables_unfold. by apply checkVars_pass.
Qed.
End StartupClaims.

Example withoutPassword_exits :
  Startup.main (Some [("MYSQL_PASSWORD", "from-file")]) true true true withoutPassword
  = Startup.Exit 1
      {| Startup.environ := Startup.environ withoutPassword;
         Startup.stderr := [missingMessage "MYSQL_PASSWORD"] |}.
Proof. vm_compute. reflexivity. Qed.

Example fullyConfigured_serves :
  Startup.main None true true true fullyConfigured
  = Startup.Return Startup.Serving
      {| Startup.environ := Startup.environ fullyConfigured;
         Startup.stderr := [noDotenvMessage] |}.
Proof. vm_compute. reflexivity. Qed.

Lemma C10_required_variables_witness :
  ((∀ p', Startup.main None true true true withoutPassword
          ≠ Startup.Return Startup.Serving p') ∧
   (∃ v, v ∈ Startup.requiredVars ∧
         unsetOrEmpty (loadedEnv None withoutPassword) v ∧
         Startup.main None true true true withoutPassword =
         Startup.Exit 1
           {| Startup.environ := loadedEnv None withoutPassword;
              Startup.stderr := (Startup.stderr withoutPassword ++ dotenvLog None)
                                  ++ [missingMessage v] |})) ∧
  (∃ value, Startup.main None true true true unknownMode
            = Startup.Panic value unknownMode) ∧
  Startup.ensureEnvVariables None fullyConfigured =
  Startup.Return tt
    {| Startup.environ := Startup.environ fullyConfigured;
       Startup.stderr := Startup.stderr fullyConfigured ++ [noDotenvMessage] |}.
Proof.
  assert (∃ v, v ∈ Startup.requiredVars ∧
               unsetOrEmpty (loadedEnv None withoutPassword) v) as Hw.
  { exists "MYSQL_PASSWORD". split; [|right; reflexivity].
    unfold Startup.requiredVars. do 2 apply list_elem_of_further.
    apply list_elem_of_here. }
  assert (∃ v, v ∈ Startup.requiredVars ∧
               unsetOrEmpty (loadedEnv None unknownMode) v) as Hu.
  { exists "MYSQL_PASSWORD". split; [|right; reflexivity].
    unfold Startup.requiredVars. do 2 apply list_elem_of_further.
    apply list_elem_of_here. }
  split; [|split].
  - destruct (proj1 (C10_required_variables None true true true withoutPassword) Hw)
      as (Hnever & Hexit & _).
    split; [exact Hnever|]. apply Hexit. reflexivity.
  - destruct (proj1 (C10_required_variables None true true true unknownMode) Hu)
      as (_ & _ & Hpanic).
    apply Hpanic. reflexivity.
  - apply (proj2 (C10_required_variables None true true true fullyConfigured)).
    unfold Startup.requiredVars.
    repeat apply Forall_cons_2; try apply Forall_nil_2;
      intros [H|H]; vm_compute in H; discriminate.
Defined.

Example unknownMode_panics :
  Startup.main None true true true unknownMode
  = Startup.Panic
      "gin mode unknown: production (available mode: debug release test)"
      unknownMode.
Proof. vm_compute. reflexivity. Qed.

(** * Further properties of the code *)

(** ** The reconciler *)
Section ReconcilerMore.
Local Open Scope Z_scope.
Implicit Types (now : Z) (s : ClassSchedule) (w : World)
         (rows : list ClassSchedule).

Lemma World_eq w1 w2 :
  manager w1 = manager w2 → logged w1 = logged w2 → w1 = w2.
Proof. destruct w1, w2; simpl; by intros -> ->. Qed.

Lemma doomed_deletesFor now s : doomed now s = true ↔ deletesFor now s.
Proof. apply doomed_spec. Qed.

Lemma elem_of_tick_manager now rows w (r : string) :
  r ∈ manager (tick now (Reachable rows) w) ↔
  r ∈ manager w ∧ ¬ ∃ s, s ∈ rows ∧ roomID s = r ∧ deletesFor now s.
Proof.
  rewrite tick_manager, elem_of_difference, elem_of_list_to_set, list_elem_of_fmap.
  split; intros [Hr Hn]; (split; [done|]); intros (s & H1 & H2); apply Hn.
  - destruct H2 as [H2 H3]. exists s. split; [done|].
    apply list_elem_of_In, filter_In.
    split; [by apply list_elem_of_In | by apply doomed_deletesFor].
  - apply list_elem_of_In, filter_In in H2 as [H2 H3].
    exists s. split; [by apply list_elem_of_In|].
    split; [done | by apply doomed_deletesFor].
Qed.


Lemma foldl_perSchedule_kept now w rows :
  Forall (λ s, pastGrace now s = false) rows →
  foldl (perSchedule now) w rows = w.
Proof.
  induction 1 as [|s rows Hs _ IH]; simpl; [done|].
  unfold perSchedule at 2. by rewrite Hs.
Qed.

Lemma tick_wellFormed now db w :
  wellFormedDB db → tick now db w = Trace db w.
Proof.
  assert (∀ rows w', Forall (λ s, StartedAt s ≤ EndedAt s) rows →
            foldl (perSchedule now) w' (List.filter (queryCond now) rows) = w')
    as Hkept.
  { intros rows w' Hwf. apply foldl_perSchedule_kept.
    apply Forall_forall. intros s Hin.
    apply list_elem_of_In, filter_In in Hin as [Hin Hq].
    rewrite Forall_forall in Hwf. specialize (Hwf s).
    pose proof (doomed_ends_before_start now s) as Hd.
    unfold doomed in Hd. rewrite Hq in Hd. simpl in Hd.
    apply Hd, Hwf. by apply list_elem_of_In. }
  destruct db as [rows|rows trace|trace]; [| |done]; simpl; intros Hwf;
    unfold tick; cbn [Find]; by apply Hkept.
Qed.

Lemma forLoop_wellFormed ticks w :
  Forall (λ tk, wellFormedDB (tickDB tk)) ticks →
  forLoop ticks w =
  ({| manager := manager w; logged := logged w ++ printedBy ticks |}, Blocked).
Proof.
  intros Hwf. revert w.
  induction Hwf as [|tk ticks Htk _ IH]; intros w; cbn [forLoop iteration].
  - unfold printedBy. cbn. rewrite app_nil_r. by destruct w.
  - rewrite tick_wellFormed by done. rewrite IH. unfold Trace, printedBy.
    cbn. by rewrite app_assoc.
Qed.

(** As long as every row the ticks read ends no earlier than it
    starts, the whole loop leaves the registry alone: however many
    ticks have fired, at whatever times, the registry is as it was at
    the start, and the log has gained exactly the lines the logger of
    the database handle printed for the reads that failed or were
    slow, in the order of the ticks. *)
Theorem manageChatRooms_idle_on_ordered_rows evs w :
  Forall (λ tk, wellFormedDB (tickDB tk)) (received evs) →
  manageChatRooms evs w =
  ({| manager := manager w;
      logged := logged w ++ printedBy (received evs) |}, Blocked).
Proof. intros Hwf. by apply forLoop_wellFormed. Qed.

Lemma manageChatRooms_idle_on_ordered_rows_witness :
  manageChatRooms
    [TickerC {| tickNow := t0; tickDB := Reachable [endedElevenAgo; startsInFour] |};
     QuitSignal;
     TickerC {| tickNow := t0 + 60 * Minute;
                tickDB := Failing "connection refused" |};
     TickerC {| tickNow := t0 + 120 * Minute;
                tickDB := Reachable [endedElevenAgo; startsInSix] |}]
    (withRooms {["class_42"; "class_43"]})
  = ({| manager := manager (withRooms {["class_42"; "class_43"]});
        logged := logged (withRooms {["class_42"; "class_43"]}) ++
          printedBy (received
            [TickerC {| tickNow := t0;
                        tickDB := Reachable [endedElevenAgo; startsInFour] |};
             QuitSignal;
             TickerC {| tickNow := t0 + 60 * Minute;
                        tickDB := Failing "connection refused" |};
             TickerC {| tickNow := t0 + 120 * Minute;
                        tickDB := Reachable [endedElevenAgo; startsInSix] |}]) |},
     Blocked).
Proof.
  apply manageChatRooms_idle_on_ordered_rows. simpl.
  repeat (apply Forall_cons_2 || apply Forall_nil_2 || exact I);
    simpl; vm_compute; discriminate.
Defined.

Example idle_run_keeps_rooms_and_logs_the_failed_read :
  manageChatRooms
    [TickerC {| tickNow := t0; tickDB := Reachable [endedElevenAgo; startsInFour] |};
     TickerC {| tickNow := t0 + 60 * Minute;
                tickDB := Failing "connection refused" |}]
    (withRooms {["class_42"]})
  = ({| manager := {["class_42"]}; logged := ["connection refused"] |}, Blocked).
Proof. vm_compute. reflexivity. Qed.

(** A tick is idempotent on the registry: run again on its own
    result, at the same time on the same store, it removes nothing
    more; the log gains only what the logger prints for the second
    read. *)
Theorem tick_idempotent now db w :
  manager (tick now db (tick now db w)) = manager (tick now db w) ∧
  logged (tick now db (tick now db w)) = logged (tick now db w) ++ printed db.
Proof.
  split; [|by rewrite tick_logged].
  destruct db as [rows|rows trace|trace]; [| |done];
    rewrite ?tick_manager, ?tick_manager_slow; set_solver.
Qed.

(** The effect of a tick depends on the rows as a set only: two
    tables with the same rows, in any order and with any repetition,
    give the same result. *)
Theorem tick_rows_as_set now rows rows' w :
  (∀ s, s ∈ rows ↔ s ∈ rows') →
  tick now (Reachable rows) w = tick now (Reachable rows') w.
Proof.
  intros Hsame. apply World_eq; [|by rewrite !tick_logged].
  apply set_eq. intros r. rewrite !elem_of_tick_manager.
  split; intros [Hr Hn]; (split; [done|]); intros (s & H1 & H2); apply Hn;
    exists s; (split; [by apply Hsame|done]).
Qed.

Lemma tick_rows_as_set_witness :
  tick t0 (Reachable [endsBeforeStart; otherEndsBeforeStart])
       (withRooms {["class_7"; "class_9"]})
  = tick t0 (Reachable [otherEndsBeforeStart; endsBeforeStart; otherEndsBeforeStart])
         (withRooms {["class_7"; "class_9"]}).
Proof.
  apply tick_rows_as_set. intros s.
  rewrite !elem_of_cons, !elem_of_nil. tauto.
Defined.

Lemma forLoop_shrinks ticks w :
  manager (forLoop ticks w).1 ⊆ manager w ∧
  logged (forLoop ticks w).1 = logged w ++ printedBy ticks.
Proof.
  revert w. induction ticks as [|tk ticks IH]; intros w; cbn [forLoop iteration].
  - unfold printedBy. cbn. by rewrite app_nil_r.
  - destruct (IH (tick (tickNow tk) (tickDB tk) w)) as [Hm Hl].
    split.
    + etrans; [exact Hm|apply tick_manager_subseteq].
    + rewrite Hl, tick_logged. unfold printedBy. cbn. by rewrite app_assoc.
Qed.

(** Over a whole run the loop composes tick by tick and only ever
    removes rooms: the registry after a sequence of events is
    contained in the registry after any prefix of it, which is
    contained in the initial one.  The loop writes nothing to the log
    itself: the log gains exactly the lines the logger of the database
    handle printed for the reads, in the order of the ticks. *)
Theorem manageChatRooms_only_removes evs1 evs2 w :
  manageChatRooms (evs1 ++ evs2) w
    = manageChatRooms evs2 (manageChatRooms evs1 w).1 ∧
  manager (manageChatRooms (evs1 ++ evs2) w).1
    ⊆ manager (manageChatRooms evs1 w).1 ∧
  manager (manageChatRooms evs1 w).1 ⊆ manager w ∧
  logged (manageChatRooms (evs1 ++ evs2) w).1
    = logged w ++ printedBy (received (evs1 ++ evs2)).
Proof.
  assert (manageChatRooms (evs1 ++ evs2) w
          = manageChatRooms evs2 (manageChatRooms evs1 w).1) as Happ.
  { unfold manageChatRooms, received. by rewrite omap_app, forLoop_app. }
  split; [done|].
  split; [rewrite Happ; unfold manageChatRooms; apply forLoop_shrinks|].
  split; [unfold manageChatRooms; apply forLoop_shrinks|].
  unfold manageChatRooms. apply forLoop_shrinks.
Qed.
End ReconcilerMore.

(** ** Middleware and routes *)
Section RouterMore.
Import Gin Middlewares Main.
Local Open Scope Z_scope.

Variable validate : string → option N.
Variable controller : Endpoint → HandlerFunc.

(** Unfolds the registration of the routes, and nothing of the
    handlers, in a hypothesis about the route table. *)
Ltac route_table H :=
  cbv beta iota zeta delta
    [setupRouter setupRoutes initializeSwagger setupUserRoutes
     setupClassBoardRoutes setupClassCodeRoutes setupClassScheduleRoutes
     setupGoogleAuthRoutes setupCreateClassRoutes setupClassUserRoutes
     setupAttendanceRoutes setupChatRoutes setupLiveClassRoutes
     Handle GET POST PUT PATCH DELETE Group Use EngineUse Default
     trees root Handlers basePath app joinPaths trimTrailingSlash
     trimLeadingSlash String.eqb Ascii.eqb Bool.eqb String.append] in H.

(** Which routes are guarded: every registered route runs the four
    global handlers first; a route under /api/gin/live/ then runs the
    token validation and its controller, every other route (users,
    boards, codes, schedules, class users, attendance, Google login,
    classes, chat, swagger) runs its controller directly, with no token
    validation in its chain. *)
Theorem only_live_routes_are_guarded (r : Route) :
  r ∈ trees (setupRouter validate controller) →
  ∃ e, routeChain r =
       Handlers (root (setupRouter validate controller)) ++
       (if String.prefix "/api/gin/live/" (routePath r)
        then [TokenAuthMiddleware validate; controller e]
        else [controller e]).
Proof.
  rewrite global_handlers. intros Hr. route_table Hr.
  repeat (apply elem_of_cons in Hr as [->|Hr]);
    [eexists;
     cbv beta iota zeta delta
       [routePath routeChain String.prefix Ascii.eqb Bool.eqb app];
     reflexivity .. | by apply elem_of_nil in Hr].
Qed.

End RouterMore.

Lemma only_live_routes_are_guarded_witness :
  let r := {| Gin.routeMethod := "DELETE"; Gin.routePath := "/api/gin/cb/:id";
              Gin.routeChain :=
                [Gin.Logger; Gin.Recovery; Main.globalErrorHandler; Main.CORS;
                 okController Main.DeleteClassBoard] |} in
  ∃ e, Gin.routeChain r =
       Gin.Handlers (Gin.root (Main.setupRouter oneToken okController)) ++
       (if String.prefix "/api/gin/live/" (Gin.routePath r)
        then [Middlewares.TokenAuthMiddleware oneToken; okController e]
        else [okController e]).
Proof.
  intros r. apply (only_live_routes_are_guarded oneToken okController r).
  unfold r.
  cbv beta iota zeta delta
    [Main.setupRouter Main.setupRoutes Main.initializeSwagger
     Main.setupUserRoutes Main.setupClassBoardRoutes Main.setupClassCodeRoutes
     Main.setupClassScheduleRoutes Main.setupGoogleAuthRoutes
     Main.setupCreateClassRoutes Main.setupClassUserRoutes
     Main.setupAttendanceRoutes Main.setupChatRoutes Main.setupLiveClassRoutes
     Gin.Handle Gin.GET Gin.POST Gin.PUT Gin.PATCH Gin.DELETE Gin.Group Gin.Use
     Gin.EngineUse Gin.Default Gin.trees Gin.root Gin.Handlers Gin.basePath app
     Gin.joinPaths Gin.trimTrailingSlash Gin.trimLeadingSlash String.eqb
     Ascii.eqb Bool.eqb String.append].
  do 7 apply list_elem_of_further. apply list_elem_of_here.
Defined.


Example error_after_answer_keeps_404 :
  let out := Main.globalErrorHandler failsAfterAnswer
               (Gin.newContext (createRoomPost None)) in
  Gin.status out = 404%Z ∧
  Gin.body out =
    [Gin.JSONBody [("error", "not found")];
     Gin.JSONBody [("error", "Internal server error");
                   ("details", "Error #01: record not found" +:+ Main.newline)]].
Proof. split; vm_compute; reflexivity. Qed.

(** ** Start-up *)
Section StartupMore.
Import Startup.
Local Open Scope Z_scope.
Implicit Types (p : Process) (e : gmap string string).

Lemma checkVars_stops_at_first l1 v l2 p :
  Forall (λ x, ¬ unsetOrEmpty (environ p) x) l1 →
  unsetOrEmpty (environ p) v →
  checkVars (l1 ++ v :: l2) p =
  Exit 1 {| environ := environ p; stderr := stderr p ++ [missingMessage v] |}.
Proof.
  intros Hset Hv. induction Hset as [|x l1 Hx _ IH]; cbn [app checkVars];
    unfold bind, Getenv.
  - apply unsetOrEmpty_Getenv in Hv. by rewrite Hv.
  - rewrite unsetOrEmpty_Getenv in Hx. apply String.eqb_neq in Hx.
    by rewrite Hx.
Qed.

Lemma checkVars_cases vars p :
  (checkVars vars p = Return tt p ∧
   Forall (λ x, ¬ unsetOrEmpty (environ p) x) vars) ∨
  (∃ v, v ∈ vars ∧ unsetOrEmpty (environ p) v ∧
        checkVars vars p =
        Exit 1 {| environ := environ p;
                  stderr := stderr p ++ [missingMessage v] |}).
Proof.
  induction vars as [|x vars IH]; [by left|].
  cbn [checkVars]. unfold bind, Getenv.
  destruct (String.eqb (default "" (environ p !! x)) "") eqn:E.
  - right. exists x. apply String.eqb_eq in E.
    split; [apply list_elem_of_here|]. split; [by apply unsetOrEmpty_Getenv|done].
  - apply String.eqb_neq in E. destruct IH as [[Hc Hall]|(v & Hin & Hv & Hc)].
    + left. split; [done|]. apply Forall_cons_2; [|done].
      by rewrite unsetOrEmpty_Getenv.
    + right. exists v. split; [by apply list_elem_of_further|]. by split.
Qed.

(** The variable named in the fatal message is the first one, in the
    order MYSQL_HOST, MYSQL_USER, MYSQL_PASSWORD, MYSQL_DATABASE,
    MYSQL_PORT, that is unset or empty once [.env] has been read; the
    variables after it are not looked at. *)
Theorem ensureEnvVariables_reports_first_missing dotenv p l1 v l2 :
  requiredVars = l1 ++ v :: l2 →
  Forall (λ x, ¬ unsetOrEmpty (loadedEnv dotenv p) x) l1 →
  unsetOrEmpty (loadedEnv dotenv p) v →
  ensureEnvVariables dotenv p =
  Exit 1 {| environ := loadedEnv dotenv p;
            stderr := (stderr p ++ dotenvLog dotenv) ++ [missingMessage v] |}.
Proof.
  intros Hvars Hset Hv. rewrite ensureEnvVariables_unfold, Hvars.
  by rewrite checkVars_stops_at_first.
Qed.

(** When [ensureEnvVariables] returns, the environment is the one
    loaded from [.env], and each of the five MYSQL variables has a
    value in it that is not the empty string. *)
Theorem ensureEnvVariables_postcondition dotenv p p' :
  ensureEnvVariables dotenv p = Return tt p' →
  environ p' = loadedEnv dotenv p ∧
  stderr p' = stderr p ++ dotenvLog dotenv ∧
  ∀ v, v ∈ requiredVars → ∃ x, environ p' !! v = Some x ∧ x ≠ "".
Proof.
  rewrite ensureEnvVariables_unfold.
  set (p1 := {| environ := loadedEnv dotenv p; stderr := _ |}).
  destruct (checkVars_cases requiredVars p1) as [[Hc Hall]|(v & _ & _ & Hc)];
    rewrite Hc; [|discriminate].
  intros [= <-]. split; [done|]. split; [done|].
  intros v Hin. rewrite Forall_forall in Hall. specialize (Hall v Hin).
  unfold unsetOrEmpty in Hall. simpl in *.
  destruct (loadedEnv dotenv p !! v) as [x|]; [|tauto].
  exists x. split; [done|]. intros ->. tauto.
Qed.

Lemma migrateDatabaseIfNeeded_cases migrates p :
  migrateDatabaseIfNeeded migrates p =
  if String.eqb (getenv p "RUN_MIGRATIONS") "true" then
    if migrates then
      Return tt (logAppend p ["データベース移行の実行が完了しました。"])
    else Exit 1 (logAppend p ["failed to migrate database"])
  else Return tt p.
Proof.
  unfold migrateDatabaseIfNeeded, getEnvOrDefault, bind, Getenv, ret, getenv.
  destruct (String.eqb (default "" (environ p !! "RUN_MIGRATIONS")) "") eqn:E.
  - apply String.eqb_eq in E. by rewrite E.
  - destruct (String.eqb _ "true"); [|done]. by destruct migrates.
Qed.

(** When start-up reaches the server: [main] gets to [startServer]
    exactly when GIN_MODE is a mode the framework knows (or is unset
    or empty) and, once [.env] has been read, the five MYSQL variables
    are set and not empty, the database and Redis can be reached, and
    the migration succeeds if RUN_MIGRATIONS is exactly "true" (any
    other value, or none, skips the migration).  [main] panics exactly
    when GIN_MODE is some other text; every exit through [log.Fatalf]
    has code 1; and past the mode check the environment is the loaded
    one. *)
Theorem main_serves_iff dotenv dbUp redisUp migrates p :
  ((∃ p', main dotenv dbUp redisUp migrates p = Return Serving p') ↔
   knownGinMode p = true ∧
   Forall (λ v, ¬ unsetOrEmpty (loadedEnv dotenv p) v) requiredVars ∧
   dbUp = true ∧ redisUp = true ∧
   (default "" (loadedEnv dotenv p !! "RUN_MIGRATIONS") = "true" →
    migrates = true)) ∧
  ((∃ value p', main dotenv dbUp redisUp migrates p = Panic value p') ↔
   knownGinMode p = false) ∧
  (∀ code p', main dotenv dbUp redisUp migrates p = Exit code p' → code = 1) ∧
  (knownGinMode p = true →
   environ (processOf (main dotenv dbUp redisUp migrates p)) = loadedEnv dotenv p).
Proof.
  rewrite main_unfold. destruct (knownGinMode p) eqn:K; [|naive_solver].
  rewrite ensureEnvVariables_unfold.
  set (p1 := {| environ := loadedEnv dotenv p; stderr := _ |}).
  destruct (checkVars_cases requiredVars p1) as [[Hc Hall]|(v & Hin & Hv & Hc)];
    rewrite Hc.
  - cbn [environ p1] in Hall.
    unfold bind, initializeDatabase, initializeRedis, startServer, ret, Fatalf.
    destruct dbUp; [|cbn; naive_solver].
    destruct redisUp; [|cbn; naive_solver].
    rewrite migrateDatabaseIfNeeded_cases. unfold getenv. cbn [environ p1].
    destruct (String.eqb _ "true") eqn:E.
    + apply String.eqb_eq in E. destruct migrates; cbn; naive_solver.
    + apply String.eqb_neq in E. cbn. naive_solver.
  - assert (¬ Forall (λ v, ¬ unsetOrEmpty (loadedEnv dotenv p) v) requiredVars)
      as Hnot.
    { rewrite Forall_forall. intros Hall. by destruct (Hall v Hin). }
    cbn. naive_solver.
Qed.
End StartupMore.

Lemma ensureEnvVariables_reports_first_missing_witness :
  Startup.ensureEnvVariables None withoutPassword =
  Startup.Exit 1
    {| Startup.environ := loadedEnv None withoutPassword;
       Startup.stderr := (Startup.stderr withoutPassword ++ dotenvLog None)
                           ++ [missingMessage "MYSQL_PASSWORD"] |}.
Proof.
  apply (ensureEnvVariables_reports_first_missing None withoutPassword
           ["MYSQL_HOST"; "MYSQL_USER"] "MYSQL_PASSWORD"
           ["MYSQL_DATABASE"; "MYSQL_PORT"]).
  - reflexivity.
  - repeat apply Forall_cons_2; try apply Forall_nil_2;
      intros [H|H]; vm_compute in H; discriminate.
  - right. reflexivity.
Defined.

Lemma ensureEnvVariables_postcondition_witness :
  Startup.environ (logAppend fullyConfigured [noDotenvMessage])
    = loadedEnv None fullyConfigured ∧
  Startup.stderr (logAppend fullyConfigured [noDotenvMessage])
    = Startup.stderr fullyConfigured ++ dotenvLog None ∧
  ∃ x, Startup.environ (logAppend fullyConfigured [noDotenvMessage])
         !! "MYSQL_PORT" = Some x ∧ x ≠ "".
Proof.
  destruct (ensureEnvVariables_postcondition None fullyConfigured
              (logAppend fullyConfigured [noDotenvMessage]))
    as (He & Hs & Hall).
  - vm_compute. reflexivity.
  - split; [exact He|]. split; [exact Hs|].
    apply Hall. unfold Startup.requiredVars.
    do 4 apply list_elem_of_further. apply list_elem_of_here.
Defined.

Lemma main_serves_iff_witness :
  (∃ p', Startup.main None true true true fullyConfigured
         = Startup.Return Startup.Serving p') ∧
  knownGinMode unknownMode = false ∧
  (1 = 1)%Z ∧
  Startup.environ (processOf (Startup.main None true true true withoutPassword))
    = loadedEnv None withoutPassword.
Proof.
  split; [|split; [|split]].
  - apply (proj1 (main_serves_iff None true true true fullyConfigured)).
    split; [reflexivity|]. split; [|split; [done|split; [done|done]]].
    unfold Startup.requiredVars.
    repeat apply Forall_cons_2; try apply Forall_nil_2;
      intros [H|H]; vm_compute in H; discriminate.
  - apply (proj1 (proj2 (main_serves_iff None true true true unknownMode))).
    eexists _, _. vm_compute. reflexivity.
  - apply (proj1 (proj2 (proj2 (main_serves_iff None true true true withoutPassword)))
             1%Z (logAppend (logAppend withoutPassword [noDotenvMessage])
                            [missingMessage "MYSQL_PASSWORD"])).
    vm_compute. reflexivity.
  - apply (proj2 (proj2 (proj2 (main_serves_iff None true true true withoutPassword)))).
    reflexivity.
Defined.

(** ** The port of the database *)
Section AtoiFacts.
Import Strconv.
Local Open Scope Z_scope.

Lemma digit_range c d : digit c = Some d → 0 ≤ d ≤ 9.
Proof.
  unfold digit. destruct (_ && _) eqn:E; [|done].
  apply andb_true_iff in E as [E1 E2]. apply Z.leb_le in E1, E2.
  intros [= <-]. lia.
Qed.

Lemma isDigit_no_sign c :
  isDigit c = true →
  Ascii.eqb c "-"%char = false ∧ Ascii.eqb c "+"%char = false.
Proof.
  intros H. split.
  - destruct (Ascii.eqb_spec c "-"%char) as [->|]; [done|done].
  - destruct (Ascii.eqb_spec c "+"%char) as [->|]; [done|done].
Qed.

Lemma decimalValue_ge s n :
  allDigits s = true → 0 ≤ n → n ≤ decimalValue s n.
Proof.
  revert n. induction s as [|c s IH]; intros n Hd Hn; simpl in *; [lia|].
  apply andb_true_iff in Hd as [Hc Hs]. unfold isDigit in Hc.
  destruct (digit c) as [d|] eqn:E; [|done].
  apply digit_range in E. simpl. etrans; [|apply IH; [done|lia]]. lia.
Qed.

Lemma decimalValue_bound s n :
  allDigits s = true → 0 ≤ n →
  decimalValue s n < (n + 1) * 10 ^ Z.of_nat (String.length s).
Proof.
  revert n. induction s as [|c s IH]; intros n Hd Hn; simpl String.length;
    cbn [allDigits decimalValue] in *; [simpl; lia|].
  apply andb_true_iff in Hd as [Hc Hs]. unfold isDigit in Hc.
  destruct (digit c) as [d|] eqn:E; [|done].
  apply digit_range in E. cbn [default id].
  rewrite Nat2Z.inj_succ, Z.pow_succ_r by lia.
  specialize (IH (n * 10 + d) Hs ltac:(lia)).
  assert (0 < 10 ^ Z.of_nat (String.length s)) by (apply Z.pow_pos_nonneg; lia).
  nia.
Qed.

Lemma fastLoop_digits s n :
  allDigits s = true → fastLoop s n = inl (decimalValue s n).
Proof.
  revert n. induction s as [|c s IH]; intros n Hd; simpl in *; [done|].
  apply andb_true_iff in Hd as [Hc Hs]. unfold isDigit in Hc.
  destruct (digit c) as [d|]; [|done]. by apply IH.
Qed.

Lemma fastLoop_nondigit s n :
  allDigits s = false → fastLoop s n = inr ErrSyntax.
Proof.
  revert n. induction s as [|c s IH]; intros n Hd; simpl in *; [done|].
  unfold isDigit in Hd. destruct (digit c) as [d|]; [|done]. by apply IH.
Qed.

Lemma parseUintLoop_nondigit s n :
  allDigits s = false → ∃ e, parseUintLoop s n = inr e.
Proof.
  revert n. induction s as [|c s IH]; intros n Hd; simpl in *; [done|].
  unfold isDigit in Hd. destruct (digit c) as [d|]; [|eauto].
  destruct (cutoff <=? n); [eauto|].
  destruct (maxUint64 <? n * 10 + d); [eauto|]. by apply IH.
Qed.

Lemma cutoff_value : cutoff = 1844674407370955162.
Proof. reflexivity. Qed.

Lemma maxUint64_value : maxUint64 = 18446744073709551615.
Proof. reflexivity. Qed.

Lemma parseUintLoop_digits s n :
  allDigits s = true → 0 ≤ n ≤ maxUint64 →
  parseUintLoop s n =
  if decimalValue s n <=? maxUint64 then inl (decimalValue s n)
  else inr ErrRange.
Proof.
  revert n. induction s as [|c s IH]; intros n Hd Hn;
    cbn [allDigits parseUintLoop decimalValue] in *.
  - destruct (Z.leb_spec n maxUint64); [done|lia].
  - apply andb_true_iff in Hd as [Hc Hs]. unfold isDigit in Hc.
    destruct (digit c) as [d|] eqn:E; [|done].
    apply digit_range in E. cbn [default id].
    pose proof (decimalValue_ge s (n * 10 + d) Hs ltac:(lia)) as Hge.
    destruct (Z.leb_spec cutoff n) as [Hcut|Hcut].
    + destruct (Z.leb_spec (decimalValue s (n * 10 + d)) maxUint64) as [Hle|];
        [|done].
      rewrite cutoff_value in Hcut. rewrite maxUint64_value in Hle. lia.
    + destruct (Z.ltb_spec maxUint64 (n * 10 + d)) as [Hov|Hov].
      * destruct (Z.leb_spec (decimalValue s (n * 10 + d)) maxUint64); [lia|done].
      * apply IH; [done|lia].
Qed.

Lemma Atoi_fast s :
  0 < Z.of_nat (String.length s) < 19 →
  Atoi s =
  match unsignedPart s with
  | EmptyString => inr ErrSyntax
  | String _ _ as digits =>
      match fastLoop digits 0 with
      | inr e => inr e
      | inl n => inl (if isNegative s then - n else n)
      end
  end.
Proof.
  intros [H1 H2]. unfold Atoi.
  apply Z.ltb_lt in H1, H2. rewrite H1, H2. simpl.
  destruct s as [|c rest]; [done|]. cbn [unsignedPart isNegative].
  destruct (Ascii.eqb c "-" || Ascii.eqb c "+"); [by destruct rest|done].
Qed.

Lemma Atoi_slow s :
  ¬ (0 < Z.of_nat (String.length s) < 19) → Atoi s = ParseInt s.
Proof.
  intros H. unfold Atoi.
  destruct (Z.ltb_spec 0 (Z.of_nat (String.length s)));
    destruct (Z.ltb_spec (Z.of_nat (String.length s)) 19); simpl; try done.
  lia.
Qed.

Lemma ParseInt_eq c rest :
  let s := String c rest in
  ParseInt s =
  match ParseUint (unsignedPart s) with
  | inr e => inr e
  | inl un =>
      if negb (isNegative s) && (2 ^ 63 <=? un) then inr ErrRange
      else if isNegative s && (2 ^ 63 <? un) then inr ErrRange
      else inl (if isNegative s then - un else un)
  end.
Proof.
  simpl. by rewrite (orb_comm (Ascii.eqb c "+")).
Qed.
End AtoiFacts.

Section PortFacts.
Import Strconv.
Local Open Scope Z_scope.

Lemma unsignedPart_length s :
  (String.length (unsignedPart s) ≤ String.length s)%nat.
Proof.
  destruct s as [|c rest]; simpl; [done|].
  destruct (_ || _); simpl; lia.
Qed.

Lemma wellFormedInt_spec s :
  wellFormedInt s = true ↔
  unsignedPart s ≠ "" ∧ allDigits (unsignedPart s) = true ∧
  - 2 ^ 63 ≤ intValue s ≤ 2 ^ 63 - 1.
Proof.
  unfold wellFormedInt.
  rewrite !andb_true_iff, negb_true_iff, String.eqb_neq, !Z.leb_le. tauto.
Qed.

(** [Atoi] accepts exactly an optional sign followed by digits whose
    value fits [int64], and gives that value. *)
Lemma Atoi_wellFormed s :
  wellFormedInt s = true → Atoi s = inl (intValue s).
Proof.
  rewrite wellFormedInt_spec. intros (Hne & Hd & Hlo & Hhi).
  pose proof (decimalValue_ge (unsignedPart s) 0 Hd ltac:(lia)) as Hge.
  unfold intValue in *.
  destruct (decide (0 < Z.of_nat (String.length s) < 19)) as [Hlen|Hlen].
  - rewrite Atoi_fast by done.
    destruct (unsignedPart s) as [|a digits] eqn:Eu; [done|].
    by rewrite fastLoop_digits.
  - rewrite Atoi_slow by done. destruct s as [|c rest]; [done|].
    rewrite (ParseInt_eq c rest). cbv zeta. unfold ParseUint.
    destruct (unsignedPart (String c rest)) as [|a digits] eqn:Eu; [done|].
    rewrite parseUintLoop_digits by (done || rewrite maxUint64_value; lia).
    set (v := decimalValue (String a digits) 0) in *.
    rewrite maxUint64_value.
    destruct (isNegative (String c rest)).
    + destruct (Z.leb_spec v 18446744073709551615); [|lia]. simpl.
      destruct (Z.ltb_spec (2 ^ 63) v); [lia|done].
    + destruct (Z.leb_spec v 18446744073709551615); [|lia]. simpl.
      destruct (Z.leb_spec (2 ^ 63) v); [lia|done].
Qed.

Lemma Atoi_illFormed s :
  wellFormedInt s = false → ∃ e, Atoi s = inr e.
Proof.
  intros Hwf.
  destruct (decide (0 < Z.of_nat (String.length s) < 19)) as [Hlen|Hlen].
  - rewrite Atoi_fast by done.
    destruct (unsignedPart s) as [|a digits] eqn:Eu; [eauto|].
    destruct (allDigits (String a digits)) eqn:Hd.
    + exfalso. apply not_true_iff_false in Hwf. apply Hwf.
      apply wellFormedInt_spec. rewrite Eu. split; [done|]. split; [done|].
      pose proof (decimalValue_ge _ 0 Hd ltac:(lia)) as Hge.
      pose proof (decimalValue_bound _ 0 Hd ltac:(lia)) as Hb.
      pose proof (unsignedPart_length s) as Hl. rewrite Eu in Hl.
      assert (10 ^ Z.of_nat (String.length (String a digits)) ≤ 10 ^ 18)
        by (apply Z.pow_le_mono_r; lia).
      unfold intValue. rewrite Eu.
      destruct (isNegative s); lia.
    + rewrite fastLoop_nondigit by done. eauto.
  - rewrite Atoi_slow by done. destruct s as [|c rest]; [simpl; eauto|].
    rewrite (ParseInt_eq c rest). cbv zeta. unfold ParseUint.
    destruct (unsignedPart (String c rest)) as [|a digits] eqn:Eu; [eauto|].
    destruct (allDigits (String a digits)) eqn:Hd.
    + rewrite parseUintLoop_digits by (done || rewrite maxUint64_value; lia).
      pose proof (decimalValue_ge _ 0 Hd ltac:(lia)) as Hge.
      assert (¬ (- 2 ^ 63 ≤ intValue (String c rest) ≤ 2 ^ 63 - 1)) as Hr.
      { intros Hr. apply not_true_iff_false in Hwf. apply Hwf.
        apply wellFormedInt_spec. rewrite Eu.
        split; [done|]. split; [done|exact Hr]. }
      unfold intValue in Hr. rewrite Eu in Hr.
      set (v := decimalValue (String a digits) 0) in *.
      destruct (Z.leb_spec v maxUint64); [|eauto].
      destruct (isNegative (String c rest)); simpl.
      * destruct (Z.ltb_spec (2 ^ 63) v); [eauto|lia].
      * destruct (Z.leb_spec (2 ^ 63) v); [eauto|lia].
    + destruct (parseUintLoop_nondigit (String a digits) 0 Hd) as [e ->]. eauto.
Qed.

Lemma digit_pretty_N_char d :
  (d < 10)%N → digit (pretty_N_char d) = Some (Z.of_N d).
Proof.
  intros H.
  assert (d = 0 ∨ d = 1 ∨ d = 2 ∨ d = 3 ∨ d = 4 ∨ d = 5 ∨ d = 6 ∨ d = 7
          ∨ d = 8 ∨ d = 9)%N as Hd by lia.
  repeat (destruct Hd as [->|Hd]; [reflexivity|]). by subst.
Qed.

Lemma allDigits_pretty_N_go x s :
  allDigits s = true → allDigits (pretty_N_go x s) = true.
Proof.
  revert s. induction (N.lt_wf_0 x) as [x _ IH]; intros s Hs.
  assert (x = 0 ∨ 0 < x)%N as [->|Hx] by lia; [by rewrite pretty_N_go_0|].
  rewrite pretty_N_go_step by done. apply IH; [by apply N.div_lt|].
  cbn [allDigits]. apply andb_true_iff. split; [|done].
  unfold isDigit. rewrite digit_pretty_N_char; [done|].
  by apply N.mod_lt.
Qed.

Lemma decimalValue_pretty_N_go x s :
  decimalValue (pretty_N_go x s) 0 = decimalValue s (Z.of_N x).
Proof.
  revert s. induction (N.lt_wf_0 x) as [x _ IH]; intros s.
  assert (x = 0 ∨ 0 < x)%N as [->|Hx] by lia; [by rewrite pretty_N_go_0|].
  rewrite pretty_N_go_step by done. rewrite IH by (by apply N.div_lt).
  cbn [decimalValue]. rewrite digit_pretty_N_char by (by apply N.mod_lt).
  cbn [default id]. f_equal.
  rewrite (N.div_mod x 10) at 3 by done. lia.
Qed.

Lemma pretty_N_go_nonempty x s : s ≠ "" → pretty_N_go x s ≠ "".
Proof.
  revert s. induction (N.lt_wf_0 x) as [x _ IH]; intros s Hs.
  assert (x = 0 ∨ 0 < x)%N as [->|Hx] by lia; [by rewrite pretty_N_go_0|].
  rewrite pretty_N_go_step by done. apply IH; [by apply N.div_lt|done].
Qed.

(** The decimal rendering of a natural number: digits only, at least
    one, and its value is the number. *)
Lemma pretty_N_numeral (n : N) :
  pretty n ≠ "" ∧ allDigits (pretty n) = true ∧
  decimalValue (pretty n) 0 = Z.of_N n.
Proof.
  unfold pretty, pretty_N. case_decide as Hn; [by subst|].
  split; [|split].
  - rewrite pretty_N_go_step by lia. by apply pretty_N_go_nonempty.
  - by apply allDigits_pretty_N_go.
  - by rewrite decimalValue_pretty_N_go.
Qed.

Lemma unsigned_numeral s :
  s ≠ "" → allDigits s = true → unsignedPart s = s ∧ isNegative s = false.
Proof.
  destruct s as [|c rest]; [done|]. intros _ Hd. cbn [allDigits] in Hd.
  apply andb_true_iff in Hd as [Hc _].
  destruct (isDigit_no_sign c Hc) as [H1 H2]. simpl. by rewrite H1, H2.
Qed.

(** [Atoi] reads back what [%d] prints, on the whole range of
    [int64]. *)
Lemma Atoi_pretty (z : Z) :
  - 2 ^ 63 ≤ z ≤ 2 ^ 63 - 1 →
  wellFormedInt (pretty z) = true ∧ intValue (pretty z) = z.
Proof.
  intros Hz. rewrite wellFormedInt_spec.
  destruct z as [|q|q]; [done| |].
  - change (pretty (Z.pos q)) with (pretty (N.pos q)).
    destruct (pretty_N_numeral (N.pos q)) as (Hne & Hd & Hv).
    destruct (unsigned_numeral _ Hne Hd) as [Hu Hs].
    unfold intValue. rewrite Hu, Hs, Hv. repeat split; try done; lia.
  - change (pretty (Z.neg q)) with (String "-"%char (pretty (N.pos q))).
    destruct (pretty_N_numeral (N.pos q)) as (Hne & Hd & Hv).
    unfold intValue. generalize dependent (pretty (N.pos q)). intros digits ???.
    simpl. rewrite Hv. repeat split; try done; lia.
Qed.
End PortFacts.

Section InitDBFacts.
Import Startup Strconv Migration.
Local Open Scope Z_scope.

Variable Quote : string → string.

Lemma InitDB_cases opens generic p :
  InitDB Quote opens generic p =
  let port := getenv p "MYSQL_PORT" in
  let p1 := logAppend p [configOf p] in
  let r := match Atoi port with
           | inl n => (n, p1)
           | inr e => (3306, logAppend p1 [portWarning Quote port e])
           end in
  match opens with
  | Some err => Exit 1 (logAppend r.2 ["failed to connect to database: " +:+ err])
  | None =>
      match generic with
      | Some err =>
          Exit 1 (logAppend r.2 ["failed to get gennric database: " +:+ err])
      | None => Return (handleOf p r.1) r.2
      end
  end.
Proof.
  unfold InitDB, bind, Getenv, Println, ret, Fatalf, getenv; cbn [environ stderr].
  destruct (Atoi (default "" (environ p !! "MYSQL_PORT")));
    destruct opens, generic; reflexivity.
Qed.

(** A port given as an optional sign and decimal digits within
    [int64] is read as its value: the DSN carries that number and only
    the configuration line is logged.  There is no check that the
    number is a possible TCP port. *)
Theorem InitDB_numeric_port p :
  wellFormedInt (getenv p "MYSQL_PORT") = true →
  InitDB Quote None None p =
  Return (handleOf p (intValue (getenv p "MYSQL_PORT")))
         (logAppend p [configOf p]).
Proof.
  intros Hwf. rewrite InitDB_cases. cbv zeta.
  by rewrite (Atoi_wellFormed _ Hwf).
Qed.

(** Any other port text (empty, a character that is no digit, digits
    beyond [int64]) does not stop [InitDB]: [Atoi] gives an error for
    it, and [InitDB] logs one warning that carries this very error and
    goes on with port 3306.  When the text has a byte that is no digit
    before any overflow, as when it is short enough for the fast path,
    the error is the syntax error. *)
Theorem InitDB_port_fallback p :
  wellFormedInt (getenv p "MYSQL_PORT") = false →
  (∃ e, Atoi (getenv p "MYSQL_PORT") = inr e ∧
        InitDB Quote None None p =
        Return (handleOf p 3306)
               (logAppend (logAppend p [configOf p])
                          [portWarning Quote (getenv p "MYSQL_PORT") e])) ∧
  (0 < Z.of_nat (String.length (getenv p "MYSQL_PORT")) < 19 →
   Atoi (getenv p "MYSQL_PORT") = inr ErrSyntax).
Proof.
  intros Hwf. destruct (Atoi_illFormed _ Hwf) as [e He]. split.
  - exists e. split; [done|]. rewrite InitDB_cases. cbv zeta. by rewrite He.
  - intros Hlen. rewrite Atoi_fast in He |- * by done.
    destruct (unsignedPart (getenv p "MYSQL_PORT")) as [|a digits]; [done|].
    destruct (allDigits (String a digits)) eqn:Hd.
    + by rewrite fastLoop_digits in He.
    + by rewrite fastLoop_nondigit.
Qed.

(** A port written the way [%d] prints a number comes back unchanged:
    the DSN has, between the colon and the closing parenthesis, the
    very text of MYSQL_PORT. *)
Theorem InitDB_port_round_trip p (z : Z) :
  - 2 ^ 63 ≤ z ≤ 2 ^ 63 - 1 →
  getenv p "MYSQL_PORT" = pretty z →
  ∃ h, InitDB Quote None None p = Return h (logAppend p [configOf p]) ∧
       DSN h =
         getenv p "MYSQL_USER" +:+ ":" +:+ getenv p "MYSQL_PASSWORD" +:+ "@tcp("
           +:+ getenv p "MYSQL_HOST" +:+ ":" +:+ getenv p "MYSQL_PORT" +:+ ")/"
           +:+ getenv p "MYSQL_DATABASE"
           +:+ "?charset=utf8mb4&parseTime=True&loc=Local".
Proof.
  intros Hz Hport. destruct (Atoi_pretty z Hz) as [Hwf Hv].
  rewrite <- Hport in Hwf, Hv.
  exists (handleOf p (intValue (getenv p "MYSQL_PORT"))).
  split; [rewrite InitDB_cases; cbv zeta; by rewrite (Atoi_wellFormed _ Hwf)|].
  rewrite Hv. cbn [DSN handleOf]. unfold formatDSN. by rewrite Hport.
Qed.

End InitDBFacts.

Lemma InitDB_numeric_port_witness :
  Migration.InitDB plainQuote None None (withPort "+03306") =
  Startup.Return
    (handleOf (withPort "+03306") (intValue (getenv (withPort "+03306") "MYSQL_PORT")))
    (logAppend (withPort "+03306") [configOf (withPort "+03306")]).
Proof.
  apply (InitDB_numeric_port plainQuote (withPort "+03306")).
  vm_compute. reflexivity.
Defined.

Lemma InitDB_port_fallback_witness :
  (∃ e, Strconv.Atoi (getenv (withPort "33o6") "MYSQL_PORT") = inr e ∧
        Migration.InitDB plainQuote None None (withPort "33o6") =
        Startup.Return (handleOf (withPort "33o6") 3306)
          (logAppend (logAppend (withPort "33o6") [configOf (withPort "33o6")])
             [Migration.portWarning plainQuote
                (getenv (withPort "33o6") "MYSQL_PORT") e])) ∧
  Strconv.Atoi (getenv (withPort "33o6") "MYSQL_PORT") = inr Strconv.ErrSyntax.
Proof.
  assert (wellFormedInt (getenv (withPort "33o6") "MYSQL_PORT") = false) as Hwf
    by (vm_compute; reflexivity).
  destruct (InitDB_port_fallback plainQuote (withPort "33o6") Hwf) as [H1 H2].
  split; [exact H1|]. apply H2. vm_compute. split; reflexivity.
Defined.

Example unparsable_port_warning :
  Startup.stderr
    (processOf (Migration.InitDB plainQuote None None (withPort "33o6")))
  = [ "Database Config - User: minori, Password: secret, DB Name: minori, Host: db, Port: 33o6";
      "Invalid port number. Using default port 3306. Error: strconv.Atoi: parsing "
        +:+ plainQuote "33o6" +:+ ": invalid syntax" ].
Proof. vm_compute. reflexivity. Qed.

Example overflowing_port_is_a_range_error :
  Strconv.Atoi "99999999999999999999x" = inr Strconv.ErrRange ∧
  Strconv.Atoi "9223372036854775808" = inr Strconv.ErrRange ∧
  Strconv.Atoi "-9223372036854775808" = inl (- 9223372036854775808)%Z.
Proof. repeat split. Qed.

Lemma InitDB_port_round_trip_witness :
  ∃ h, Migration.InitDB plainQuote None None (withPort "3306")
       = Startup.Return h (logAppend (withPort "3306") [configOf (withPort "3306")]) ∧
       Migration.DSN h =
         getenv (withPort "3306") "MYSQL_USER" +:+ ":"
           +:+ getenv (withPort "3306") "MYSQL_PASSWORD" +:+ "@tcp("
           +:+ getenv (withPort "3306") "MYSQL_HOST" +:+ ":"
           +:+ getenv (withPort "3306") "MYSQL_PORT" +:+ ")/"
           +:+ getenv (withPort "3306") "MYSQL_DATABASE"
           +:+ "?charset=utf8mb4&parseTime=True&loc=Local".
Proof.
  apply (InitDB_port_round_trip plainQuote (withPort "3306") 3306%Z).
  - split; vm_compute; discriminate.
  - vm_compute. reflexivity.
Defined.


Example signed_port_is_normalised :
  Migration.DSN (handleOf (withPort "+03306")
                   (intValue (getenv (withPort "+03306") "MYSQL_PORT")))
  = "minori:secret@tcp(db:3306)/minori?charset=utf8mb4&parseTime=True&loc=Local".
Proof. vm_compute. reflexivity. Qed.

Example negative_port_is_accepted :
  Migration.InitDB plainQuote None None (withPort "-1") =
  Startup.Return
    {| Migration.DSN :=
         "minori:secret@tcp(db:-1)/minori?charset=utf8mb4&parseTime=True&loc=Local";
       Migration.MaxIdleConns := 10; Migration.MaxOpenConns := 100;
       Migration.ConnMaxLifetime := 3600000000000 |}
    (logAppend (withPort "-1")
       ["Database Config - User: minori, Password: secret, DB Name: minori, Host: db, Port: -1"]).
Proof. vm_compute. reflexivity. Qed.

Example spaced_port_falls_back :
  Migration.DSN <$>
    match Migration.InitDB plainQuote None None (withPort " 3306") with
    | Startup.Return h _ => Some h
    | Startup.Exit _ _ => None
    | Startup.Panic _ _ => None
    end
  = Some "minori:secret@tcp(db:3306)/minori?charset=utf8mb4&parseTime=True&loc=Local"
  ∧ length (Startup.stderr
              (processOf (Migration.InitDB plainQuote None None (withPort " 3306"))))
    = 2%nat.
Proof. split; vm_compute; reflexivity. Qed.
